(** * SaaS Landing API: a shallow embedding of [main.py] and [schemas.py]

    The route handlers of [main.py] are embedded as state-passing functions
    over a persistence adapter.  Python strings are represented by their
    UTF-8 encoding, one [ascii] per byte; a surrogate code point (U+D800 to
    U+DFFF), which a Python string can hold and UTF-8 cannot encode, is
    represented by the three bytes [ED A0..BF 80..BF].  Documents are
    dictionaries from field names to values. *)

From Stdlib Require Import ZArith String Ascii List Lia Bool.
From stdpp Require Import base option list gmap strings.

Local Open Scope Z_scope.
Local Open Scope string_scope.

(** ** Python strings *)

Module PyStr.

(** Bytes [10xxxxxx] continue a UTF-8 encoded character. *)
Definition is_continuation (a : ascii) : bool :=
  let n := Z.of_N (N_of_ascii a) in ((128 <=? n)%Z && (n <? 192)%Z)%bool.

(** [s[:n]]: the first [n] characters (code points) of [s]. *)
Fixpoint slice_to (n : nat) (s : string) {struct s} : string :=
  match s with
  | EmptyString => EmptyString
  | String a s' =>
      if is_continuation a then String a (slice_to n s')
      else match n with
           | O => EmptyString
           | S n' => String a (slice_to n' s')
           end
  end.

(** The bytes that represent [s], as a list of byte values. *)
Definition utf8_bytes (s : string) : list Z :=
  map (fun a => Z.of_N (N_of_ascii a)) (list_ascii_of_string s).

(** The two leading bytes of a represented surrogate: [ED] and [A0..BF]. *)
Definition is_surrogate_lead (a b : ascii) : bool :=
  ((N_of_ascii a =? 237)%N && (160 <=? N_of_ascii b)%N
   && (N_of_ascii b <=? 191)%N)%bool.

(** The index, counted in characters from [i], of the first surrogate of
    [s], if it holds one. *)
Fixpoint first_surrogate (i : nat) (s : string) {struct s} : option nat :=
  match s with
  | EmptyString => None
  | String a s' =>
      if is_continuation a then first_surrogate i s'
      else match s' with
           | String b _ =>
               if is_surrogate_lead a b then Some i
               else first_surrogate (S i) s'
           | EmptyString => first_surrogate (S i) s'
           end
  end.

(** Truthiness of a string: non-empty. *)
Definition truthy (s : string) : bool :=
  match s with EmptyString => false | _ => true end.

(** Lower-case hexadecimal rendering of [x] on [digits] digits. *)
Definition hex_digit (d : Z) : ascii :=
  if (d <? 10)%Z then ascii_of_N (Z.to_N (48 + d)) else ascii_of_N (Z.to_N (87 + d)).

Fixpoint hex_of (digits : nat) (x : Z) : string :=
  match digits with
  | O => EmptyString
  | S n => hex_of n (Z.shiftr x 4) +:+ String (hex_digit (Z.land x 15)) EmptyString
  end.

End PyStr.

(** ** [hashlib.sha256]

    FIPS 180-4 over 32-bit words held in [Z]; every addition is reduced
    modulo [2^32]. *)

Module Sha256.

Definition w32 (x : Z) : Z := x mod 4294967296.
Definition add32 (x y : Z) : Z := w32 (x + y).
Definition not32 (x : Z) : Z := Z.lxor x 4294967295.
Definition rotr (n x : Z) : Z :=
  Z.lor (Z.shiftr x n) (w32 (Z.shiftl x (32 - n))).

Definition Ch (x y z : Z) : Z := Z.lxor (Z.land x y) (Z.land (not32 x) z).
Definition Maj (x y z : Z) : Z :=
  Z.lxor (Z.lxor (Z.land x y) (Z.land x z)) (Z.land y z).
Definition Sigma0 (x : Z) : Z := Z.lxor (Z.lxor (rotr 2 x) (rotr 13 x)) (rotr 22 x).
Definition Sigma1 (x : Z) : Z := Z.lxor (Z.lxor (rotr 6 x) (rotr 11 x)) (rotr 25 x).
Definition sigma0 (x : Z) : Z := Z.lxor (Z.lxor (rotr 7 x) (rotr 18 x)) (Z.shiftr x 3).
Definition sigma1 (x : Z) : Z := Z.lxor (Z.lxor (rotr 17 x) (rotr 19 x)) (Z.shiftr x 10).

(** The primes below 312: the first sixty-four. *)
Definition is_prime (p : Z) : bool :=
  (2 <=? p)%Z
  && forallb (fun d => negb (p mod d =? 0)%Z)
             (List.filter (fun d => (d * d <=? p)%Z) (map Z.of_nat (seq 2 16))).

Definition primes : list Z :=
  List.filter is_prime (map Z.of_nat (seq 2 310)).

(** Integer cube root, found bit by bit from bit [n - 1] down. *)
Fixpoint cbrt_bits (n : nat) (x r : Z) : Z :=
  match n with
  | O => r
  | S n' =>
      let c := r + 2 ^ Z.of_nat n' in
      if (c * c * c <=? x)%Z then cbrt_bits n' x c else cbrt_bits n' x r
  end.

(** Round constants: the first 32 bits of the fractional parts of the cube
    roots of the first sixty-four primes. *)
Definition K : list Z :=
  Eval vm_compute in map (fun p => w32 (cbrt_bits 36 (p * 2 ^ 96) 0)) primes.

(** Initial hash value: the first 32 bits of the fractional parts of the
    square roots of the first eight primes. *)
Definition H0 : list Z :=
  Eval vm_compute in map (fun p => w32 (Z.sqrt (p * 2 ^ 64))) (firstn 8 primes).

(** Big-endian bytes of [x], [n] of them. *)
Fixpoint be_bytes (n : nat) (x : Z) : list Z :=
  match n with
  | O => []
  | S n' => be_bytes n' (Z.shiftr x 8) ++ [Z.land x 255]
  end.

(** The message followed by [0x80], zero bytes up to 56 modulo 64, and the
    bit length on 8 bytes. *)
Definition pad (msg : list Z) : list Z :=
  let len := Z.of_nat (length msg) in
  let zeros := Z.to_nat ((55 - len) mod 64) in
  msg ++ [128] ++ repeat 0 zeros ++ be_bytes 8 (8 * len).

Fixpoint be_words (bytes : list Z) : list Z :=
  match bytes with
  | b0 :: b1 :: b2 :: b3 :: rest =>
      (((b0 * 256 + b1) * 256 + b2) * 256 + b3) :: be_words rest
  | _ => []
  end.

Fixpoint blocks (fuel : nat) (words : list Z) : list (list Z) :=
  match fuel, words with
  | S fuel', _ :: _ => firstn 16 words :: blocks fuel' (skipn 16 words)
  | _, _ => []
  end.

Definition wd (l : list Z) (i : nat) : Z := nth i l 0.

(** Message schedule: extends the 16 words of a block to 64, [n] steps. *)
Fixpoint schedule (n : nat) (w : list Z) : list Z :=
  match n with
  | O => w
  | S n' =>
      let t := length w in
      let x := add32 (add32 (sigma1 (wd w (t - 2))) (wd w (t - 7)))
                     (add32 (sigma0 (wd w (t - 15))) (wd w (t - 16))) in
      schedule n' (w ++ [x])
  end.

Record regs := Regs { ra : Z; rb : Z; rc : Z; rd : Z; re : Z; rf : Z; rg : Z; rh : Z }.

Definition round (r : regs) (kw : Z * Z) : regs :=
  let t1 := add32 (add32 (add32 (rh r) (Sigma1 (re r))) (Ch (re r) (rf r) (rg r)))
                  (add32 (fst kw) (snd kw)) in
  let t2 := add32 (Sigma0 (ra r)) (Maj (ra r) (rb r) (rc r)) in
  Regs (add32 t1 t2) (ra r) (rb r) (rc r) (add32 (rd r) t1) (re r) (rf r) (rg r).

Definition regs_of (h : list Z) : regs :=
  Regs (wd h 0) (wd h 1) (wd h 2) (wd h 3) (wd h 4) (wd h 5) (wd h 6) (wd h 7).

Definition compress (h : list Z) (block : list Z) : list Z :=
  let w := schedule 48 block in
  let r := fold_left round (combine K w) (regs_of h) in
  [ add32 (wd h 0) (ra r); add32 (wd h 1) (rb r); add32 (wd h 2) (rc r);
    add32 (wd h 3) (rd r); add32 (wd h 4) (re r); add32 (wd h 5) (rf r);
    add32 (wd h 6) (rg r); add32 (wd h 7) (rh r) ].

Definition digest_words (msg : list Z) : list Z :=
  let words := be_words (pad msg) in
  fold_left compress (blocks (length words) words) H0.

(** [hashlib.sha256(data).hexdigest()] *)
Definition hexdigest (msg : list Z) : string :=
  fold_right (fun w acc => PyStr.hex_of 8 w +:+ acc) EmptyString (digest_words msg).

End Sha256.


(** ** Values, documents, exceptions *)

(** The values a document field can hold: the field types the schemas of
    [schemas.py] declare ([str], [bool], [None], [datetime], lists).  The
    embedding covers documents made of these. *)
#[warnings="-register-all"] Inductive value : Type :=
| VNone
| VBool (b : bool)
| VStr (s : string)
| VDatetime (t : Z)
| VList (l : list value).

Definition value_eq_dec : forall x y : value, {x = y} + {x <> y}.
Proof.
  fix IH 1. intros x y. decide equality.
  - apply Bool.bool_dec.
  - apply String.string_dec.
  - apply Z.eq_dec.
  - apply List.list_eq_dec, IH.
Defined.

#[global] Instance value_eq_decision : EqDecision value := value_eq_dec.

(** A Python [dict] with string keys. *)
Abbreviation document := (gmap string value).

(** [d.get(k, dflt)] *)
Definition dict_get (d : document) (k : string) (dflt : value) : value :=
  default dflt (d !! k).

Definition opt_str (o : option string) : value :=
  match o with Some s => VStr s | None => VNone end.

Definition opt_datetime (o : option Z) : value :=
  match o with Some t => VDatetime t | None => VNone end.

(** Pydantic reports the offending field and the kind of fault. *)
Inductive field_error : Type :=
| Missing (loc : string)
| WrongType (loc : string)
| ValueError (loc : string).

Inductive exn : Type :=
| HTTPException (status_code : Z) (detail : string)
| RequestValidationError (errors : list field_error)
| ValidationError (errors : list field_error)
| UnicodeEncodeError (start : nat)
| Exception (msg : string).

(** ** Handlers as state-passing computations that may raise *)

Inductive outcome (A : Type) : Type :=
| Return (a : A)
| Raise (e : exn).
Arguments Return {A} a.
Arguments Raise {A} e.

Definition M (S A : Type) : Type := S -> outcome A * S.

Definition ret {S A} (a : A) : M S A := fun s => (Return a, s).

Definition raise {S A} (e : exn) : M S A := fun s => (Raise e, s).

(** A call that may raise and does not touch the state. *)
Definition lift {S A} (o : outcome A) : M S A := fun s => (o, s).

Definition bind {S A B} (m : M S A) (k : A -> M S B) : M S B :=
  fun s => match m s with
           | (Return a, s') => k a s'
           | (Raise e, s') => (Raise e, s')
           end.

Notation "'let*' x ':=' m 'in' k" := (bind m (fun x => k))
  (at level 10, x name, m at level 100, k at level 200).

(** [try: body except Exception as e: handler e] *)
Definition try_except {S A} (body : M S A) (handler : exn -> M S A) : M S A :=
  fun s => match body s with
           | (Raise e, s') => handler e s'
           | r => r
           end.

(** [for x in l: body x] *)
Fixpoint for_each {S A} (l : list A) (body : A -> M S unit) : M S unit :=
  match l with
  | [] => ret tt
  | x :: l' => let* _ := body x in for_each l' body
  end.

(** [result = []; for x in l: result.append(f x)] *)
Fixpoint collect {S A B} (l : list A) (f : A -> M S B) : M S (list B) :=
  match l with
  | [] => ret []
  | x :: l' => let* y := f x in let* ys := collect l' f in ret (y :: ys)
  end.

(** Truthiness of a list: non-empty. *)
Definition list_truthy {A} (l : list A) : bool :=
  match l with [] => false | _ :: _ => true end.

(** ** Utility *)

(** [s.encode("utf-8")]: a string that holds a surrogate has no encoding,
    and the call raises with the index of the first one. *)
Definition encode_utf8 (s : string) : outcome (list Z) :=
  match PyStr.first_surrogate 0 s with
  | Some start => Raise (UnicodeEncodeError start)
  | None => Return (PyStr.utf8_bytes s)
  end.

Definition hash_password (password : string) : outcome string :=
  match encode_utf8 password with
  | Return data => Return (Sha256.hexdigest data)
  | Raise e => Raise e
  end.

(** The digest [hash_password] returns for a password that has an
    encoding. *)
Definition hex_sha256 (password : string) : string :=
  Sha256.hexdigest (PyStr.utf8_bytes password).

(** The persistence adapter imported from [database]: the two operations the
    handlers call.  Either may raise, and either may touch the store.  A
    schema record handed to [create_document] is passed here as the
    dictionary [model_dump] makes of it. *)
Class Persistence (S : Type) : Type := {
  create_document : string -> document -> M S string;
  get_documents : string -> document -> option nat -> M S (list document);
}.

(** ** Database schemas ([schemas.py]) *)

Module User.
Record t : Type := Build {
  name : string;
  email : string;
  password_hash : string;
  avatar_url : option string;
  is_active : bool;
}.

Definition model_dump (u : t) : document :=
  <["name" := VStr (name u)]>
  (<["email" := VStr (email u)]>
  (<["password_hash" := VStr (password_hash u)]>
  (<["avatar_url" := opt_str (avatar_url u)]>
  (<["is_active" := VBool (is_active u)]> ∅)))).
End User.

Module BlogPost.
Record t : Type := Build {
  title : string;
  slug : string;
  summary : option string;
  content : string;
  author : string;
  tags : list string;
  published : bool;
  published_at : option Z;
}.

(** The constructor call [BlogPost(...)]: an argument the caller omits is
    [None] here and takes the default the schema declares. *)
Definition init (title slug : string) (summary : option string)
    (content author : string) (tags : option (list string))
    (published : option bool) (published_at : option Z) : t :=
  {| title := title;
     slug := slug;
     summary := summary;
     content := content;
     author := author;
     tags := default [] tags;
     published := default true published;
     published_at := published_at |}.

Definition model_dump (b : t) : document :=
  <["title" := VStr (title b)]>
  (<["slug" := VStr (slug b)]>
  (<["summary" := opt_str (summary b)]>
  (<["content" := VStr (content b)]>
  (<["author" := VStr (author b)]>
  (<["tags" := VList (VStr <$> tags b)]>
  (<["published" := VBool (published b)]>
  (<["published_at" := opt_datetime (published_at b)]> ∅))))))).
End BlogPost.

Module ContactMessage.
Record t : Type := Build {
  name : string;
  email : string;
  subject : option string;
  message : string;
}.

Definition model_dump (c : t) : document :=
  <["name" := VStr (name c)]>
  (<["email" := VStr (email c)]>
  (<["subject" := opt_str (subject c)]>
  (<["message" := VStr (message c)]> ∅))).
End ContactMessage.

(** ** Models (requests and responses) *)

Module RegisterRequest.
Record t : Type := Build { name : string; email : string; password : string }.
End RegisterRequest.

Module LoginRequest.
Record t : Type := Build { email : string; password : string }.
End LoginRequest.

Module ContactRequest.
Record t : Type := Build {
  name : string;
  email : string;
  subject : option string;
  message : string;
}.
End ContactRequest.

(** A model validates its fields in pydantic's default mode: a value of
    the declared type is taken as it is, and a string is converted where
    the library reads strings (["true"] or ["no"] for a [bool], an ISO 8601
    text for a [datetime]).  The two readers are the library's. *)
Class Conversions : Type := {
  bool_of_str : string -> option bool;
  datetime_of_str : string -> option Z;
}.

(** Reading a value at a declared field type. *)
Definition as_str (v : value) : option string :=
  match v with VStr s => Some s | _ => None end.

Definition as_opt_str (v : value) : option (option string) :=
  match v with VNone => Some None | VStr s => Some (Some s) | _ => None end.

Definition as_bool `{!Conversions} (v : value) : option bool :=
  match v with
  | VBool b => Some b
  | VStr s => bool_of_str s
  | _ => None
  end.

Definition as_opt_datetime `{!Conversions} (v : value) : option (option Z) :=
  match v with
  | VNone => Some None
  | VDatetime t => Some (Some t)
  | VStr s => Some <$> datetime_of_str s
  | _ => None
  end.

Definition as_str_list (v : value) : option (list string) :=
  match v with VList l => mapM as_str l | _ => None end.

Definition check {A} (loc : string) (o : option A) : list field_error :=
  match o with Some _ => [] | None => [WrongType loc] end.

(** The fault of a field that reads strings: a string that cannot be read
    is a fault of the value, anything else a fault of the type. *)
Definition check_read {A} (loc : string) (v : value) (o : option A)
  : list field_error :=
  match o, v with
  | Some _, _ => []
  | None, VStr _ => [ValueError loc]
  | None, _ => [WrongType loc]
  end.

Module BlogOut.
Record t : Type := Build {
  title : string;
  slug : string;
  summary : option string;
  content : string;
  author : string;
  tags : list string;
  published : bool;
  published_at : option Z;
}.

(** The constructor call [BlogOut(title=..., ..., published_at=...)] with
    every field passed: each argument is validated at the declared type,
    and the faults of all fields are raised together. *)
Definition init `{!Conversions} (title slug summary content author tags published
    published_at : value) : outcome t :=
  match as_str title, as_str slug, as_opt_str summary, as_str content,
        as_str author, as_str_list tags, as_bool published,
        as_opt_datetime published_at with
  | Some ti, Some sl, Some su, Some co, Some au, Some ta, Some pu, Some pa =>
      Return (Build ti sl su co au ta pu pa)
  | oti, osl, osu, oco, oau, ota, opu, opa =>
      Raise (ValidationError
        (check "title" oti ++ check "slug" osl ++ check "summary" osu ++
         check "content" oco ++ check "author" oau ++ check "tags" ota ++
         check_read "published" published opu ++
         check_read "published_at" published_at opa))
  end.
End BlogOut.

Module RegisterResponse.
Record t : Type := Build { ok : bool; user_id : string }.
End RegisterResponse.

Module LoginResponse.
Record t : Type := Build { ok : bool; name : value; email : value }.
End LoginResponse.

Module ContactResponse.
Record t : Type := Build { ok : bool; message : string; id : string }.
End ContactResponse.

(** ** Auth, blog and contact handlers *)

Section Handlers.
Context {S : Type} `{!Persistence S} {conv : Conversions}.

Definition register (payload : RegisterRequest.t) : M S RegisterResponse.t :=
  let* existing :=
    get_documents "user" {["email" := VStr (RegisterRequest.email payload)]}
                  (Some 1%nat) in
  if list_truthy existing then
    raise (HTTPException 400 "Email already registered")
  else
    let* password_hash := lift (hash_password (RegisterRequest.password payload)) in
    let user_doc :=
      {| User.name := RegisterRequest.name payload;
         User.email := RegisterRequest.email payload;
         User.password_hash := password_hash;
         User.avatar_url := None;
         User.is_active := true |} in
    let* user_id := create_document "user" (User.model_dump user_doc) in
    ret {| RegisterResponse.ok := true; RegisterResponse.user_id := user_id |}.

Definition login (payload : LoginRequest.t) : M S LoginResponse.t :=
  let* users :=
    get_documents "user" {["email" := VStr (LoginRequest.email payload)]}
                  (Some 1%nat) in
  match users with
  | [] => raise (HTTPException 401 "Invalid credentials")
  | user :: _ =>
      let* password_hash := lift (hash_password (LoginRequest.password payload)) in
      if bool_decide (dict_get user "password_hash" VNone <> VStr password_hash)
      then raise (HTTPException 401 "Invalid credentials")
      else ret {| LoginResponse.ok := true;
                  LoginResponse.name := dict_get user "name" VNone;
                  LoginResponse.email := dict_get user "email" VNone |}
  end.

(** The two example posts; [now1] and [now2] are the two readings of
    [datetime.utcnow()]. *)
Definition examples (now1 now2 : Z) : list BlogPost.t :=
  [ BlogPost.init
      "Launching our pastel fintech platform"
      "launching-pastel-fintech"
      (Some "A soft, modern take on digital banking.")
      "We are excited to introduce a gentle, human fintech experience..."
      "Team"
      (Some ["announcement"; "fintech"])
      (Some true)
      (Some now1);
    BlogPost.init
      "How we price simply and fairly"
      "simple-fair-pricing"
      (Some "Transparent plans that scale with you.")
      "No hidden fees. Just clear tiers designed for growth..."
      "Team"
      (Some ["pricing"; "product"])
      (Some true)
      (Some now2) ].

(** The body of the mapping loop of [list_blogs]. *)
Definition blog_out (p : document) : outcome BlogOut.t :=
  BlogOut.init
    (dict_get p "title" VNone)
    (dict_get p "slug" VNone)
    (dict_get p "summary" VNone)
    (dict_get p "content" VNone)
    (dict_get p "author" VNone)
    (dict_get p "tags" (VList []))
    (dict_get p "published" (VBool true))
    (dict_get p "published_at" VNone).

Definition list_blogs (now1 now2 : Z) : M S (list BlogOut.t) :=
  let* posts := get_documents "blogpost" {["published" := VBool true]} None in
  let* posts :=
    if list_truthy posts then ret posts
    else
      let* _ := for_each (examples now1 now2) (fun ex =>
                  let* _ := create_document "blogpost" (BlogPost.model_dump ex) in
                  ret tt) in
      get_documents "blogpost" {["published" := VBool true]} None in
  collect posts (fun p s => (blog_out p, s)).

Definition contact (payload : ContactRequest.t) : M S ContactResponse.t :=
  let msg :=
    {| ContactMessage.name := ContactRequest.name payload;
       ContactMessage.email := ContactRequest.email payload;
       ContactMessage.subject := ContactRequest.subject payload;
       ContactMessage.message := ContactRequest.message payload |} in
  let* doc_id := create_document "contactmessage" (ContactMessage.model_dump msg) in
  ret {| ContactResponse.ok := true;
         ContactResponse.message :=
           "Thanks for reaching out! We'll get back to you soon.";
         ContactResponse.id := doc_id |}.

End Handlers.

(** ** Request validation and routing

    A route whose handler takes a body parameter annotated with a request
    model first validates the JSON body against the model's declaration;
    the handler runs only on the validated record.  [validate_email]
    stands for the syntax check and normalisation behind [EmailStr]. *)

Section Routes.
Context {S : Type} `{!Persistence S}.
Variable validate_email : string -> option string.

(** A field declared [k: str] without a default. *)
Definition required_str (body : document) (k : string) : field_error + string :=
  match body !! k with
  | None => inl (Missing k)
  | Some (VStr s) => inr s
  | Some _ => inl (WrongType k)
  end.

(** A field declared [k: EmailStr] without a default. *)
Definition required_email (body : document) (k : string) : field_error + string :=
  match required_str body k with
  | inl e => inl e
  | inr s => match validate_email s with
             | Some s' => inr s'
             | None => inl (ValueError k)
             end
  end.

(** A field declared [k: Optional[str] = None]. *)
Definition optional_str (body : document) (k : string)
  : field_error + option string :=
  match body !! k with
  | None | Some VNone => inr None
  | Some (VStr s) => inr (Some s)
  | Some _ => inl (WrongType k)
  end.

Definition fault {A} (r : field_error + A) : list field_error :=
  match r with inl e => [e] | inr _ => [] end.

Definition RegisterRequest_validate (body : document)
  : list field_error + RegisterRequest.t :=
  match required_str body "name", required_email body "email",
        required_str body "password" with
  | inr n, inr e, inr p => inr (RegisterRequest.Build n e p)
  | rn, re, rp => inl (fault rn ++ fault re ++ fault rp)%list
  end.

Definition LoginRequest_validate (body : document)
  : list field_error + LoginRequest.t :=
  match required_email body "email", required_str body "password" with
  | inr e, inr p => inr (LoginRequest.Build e p)
  | re, rp => inl (fault re ++ fault rp)%list
  end.

Definition ContactRequest_validate (body : document)
  : list field_error + ContactRequest.t :=
  match required_str body "name", required_email body "email",
        optional_str body "subject", required_str body "message" with
  | inr n, inr e, inr su, inr m => inr (ContactRequest.Build n e su m)
  | rn, re, rsu, rm => inl (fault rn ++ fault re ++ fault rsu ++ fault rm)%list
  end.

(** [@app.post(path)] over [def handler(payload: Req)]. *)
Definition post {Req Resp : Type} (validate : document -> list field_error + Req)
    (handler : Req -> M S Resp) (body : document) : M S Resp :=
  match validate body with
  | inl errors => raise (RequestValidationError errors)
  | inr payload => handler payload
  end.

Definition post_api_auth_register : document -> M S RegisterResponse.t :=
  post RegisterRequest_validate register.

Definition post_api_auth_login : document -> M S LoginResponse.t :=
  post LoginRequest_validate login.

Definition post_api_contact : document -> M S ContactResponse.t :=
  post ContactRequest_validate contact.

End Routes.

(** ** Root and health *)

Definition read_root : string := "SaaS Landing API running".

Module Database.
(** What looking up an attribute of the [db] object does. *)
Inductive attribute : Type :=
| NoAttribute
| Attribute (v : string)
| AttributeRaises (msg : string).

(** The [db] handle as [test_database] probes it: its [name] attribute and
    the result of [list_collection_names()], [inl msg] when the call raises
    an exception [e] with [str(e) = msg]. *)
Record t : Type := Build {
  name : attribute;
  list_collection_names : string + list string;
}.
End Database.

Module Diagnostics.
Record t : Type := Build {
  backend : string;
  database : string;
  database_url : option string;
  database_name : option string;
  connection_status : string;
  collections : list string;
}.
End Diagnostics.

Section TestDatabase.
Import Diagnostics.

(** [str(e)], the message of an exception.  The probes of [test_database]
    raise [Exception] only; the other cases, which give the detail or the
    reason the exception carries, are not reached there. *)
Definition str (e : exn) : string :=
  match e with
  | Exception msg => msg
  | HTTPException _ detail => detail
  | RequestValidationError _ | ValidationError _ => "validation error"
  | UnicodeEncodeError _ => "surrogates not allowed"
  end.

(** Assignments [response[key] = v] to the local dictionary. *)
Definition assign_database (v : string) : M Diagnostics.t unit :=
  fun r => (Return tt, Build (backend r) v (database_url r) (database_name r)
                             (connection_status r) (collections r)).

Definition assign_database_url (v : option string) : M Diagnostics.t unit :=
  fun r => (Return tt, Build (backend r) (database r) v (database_name r)
                             (connection_status r) (collections r)).

Definition assign_database_name (v : option string) : M Diagnostics.t unit :=
  fun r => (Return tt, Build (backend r) (database r) (database_url r) v
                             (connection_status r) (collections r)).

Definition assign_connection_status (v : string) : M Diagnostics.t unit :=
  fun r => (Return tt, Build (backend r) (database r) (database_url r)
                             (database_name r) v (collections r)).

Definition assign_collections (v : list string) : M Diagnostics.t unit :=
  fun r => (Return tt, Build (backend r) (database r) (database_url r)
                             (database_name r) (connection_status r) v).

(** [hasattr(db, 'name')]: false on a missing attribute, any other
    exception of the lookup propagates. *)
Definition hasattr_name (db : Database.t) : M Diagnostics.t bool :=
  match Database.name db with
  | Database.NoAttribute => ret false
  | Database.Attribute _ => ret true
  | Database.AttributeRaises msg => raise (Exception msg)
  end.

(** [db.name] *)
Definition getattr_name (db : Database.t) : M Diagnostics.t string :=
  match Database.name db with
  | Database.NoAttribute => raise (Exception "AttributeError")
  | Database.Attribute v => ret v
  | Database.AttributeRaises msg => raise (Exception msg)
  end.

(** [db.list_collection_names()] *)
Definition call_list_collection_names (db : Database.t)
  : M Diagnostics.t (list string) :=
  match Database.list_collection_names db with
  | inl msg => raise (Exception msg)
  | inr names => ret names
  end.

(** [os.getenv("DATABASE_URL")] used as a condition. *)
Definition env_truthy (v : option string) : bool :=
  match v with Some s => PyStr.truthy s | None => false end.

Definition initial_response : Diagnostics.t :=
  {| backend := "✅ Running";
     database := "❌ Not Available";
     database_url := None;
     database_name := None;
     connection_status := "Not Connected";
     collections := [] |}.

(** The [try] statement of [test_database], run on the local [response]. *)
Definition probe (db : option Database.t) (DATABASE_URL : option string)
  : M Diagnostics.t unit :=
  try_except
    (match db with
     | Some db =>
         let* _ := assign_database "✅ Available" in
         let* _ := assign_database_url
                     (Some (if env_truthy DATABASE_URL then "✅ Set"
                            else "❌ Not Set")) in
         let* has := hasattr_name db in
         let* name := (if has then getattr_name db else ret "✅ Connected") in
         let* _ := assign_database_name (Some name) in
         let* _ := assign_connection_status "Connected" in
         try_except
           (let* names := call_list_collection_names db in
            let* _ := assign_collections (take 10 names) in
            assign_database "✅ Connected & Working")
           (fun e => assign_database
                       ("⚠️ Connected but Error: " +:+ PyStr.slice_to 50 (str e)))
     | None => assign_database "⚠️ Available but not initialized"
     end)
    (fun e => assign_database ("❌ Error: " +:+ PyStr.slice_to 50 (str e))).

Definition test_database (db : option Database.t) (DATABASE_URL : option string)
  : outcome Diagnostics.t :=
  match probe db DATABASE_URL initial_response with
  | (Return _, response) => Return response
  | (Raise e, _) => Raise e
  end.

End TestDatabase.

(** ** The document store *)

Module Store.

(** Modelled from the spec: the module [database] is not among the sources.
    A store groups documents into named collections; it assigns every
    created document an opaque identifier, drawn here from a counter. *)
Record t : Type := Build {
  collections : gmap string (list document);
  next_id : N;
}.

(** Modelled from the spec: the documents of collection [c] in store-native
    order, none when the store has no such collection. *)
Definition collection (c : string) (s : t) : list document :=
  default [] (collections s !! c).

(** Modelled from the spec: the identifier the store generates, here the
    counter written on 24 hexadecimal digits. *)
Definition object_id (n : N) : string := PyStr.hex_of 24 (Z.of_N n).

(** Modelled from the spec: a document matches a field-match filter when it
    holds every field of the filter with the same value. *)
Definition matches (filter d : document) : Prop :=
  map_Forall (fun k v => d !! k = Some v) filter.

#[global] Instance matches_dec filter d : Decision (matches filter d).
Proof. unfold matches. apply _. Defined.

(** Modelled from the spec: [find(collection, filter, limit?)] returns the
    matching documents of the collection, up to [limit] of them (all of
    them when it is omitted), the empty sequence when nothing matches; the
    store is not changed. *)
Definition find (c : string) (filter : document) (limit : option nat)
  : M t (list document) :=
  fun s =>
    let hits := List.filter (fun d => bool_decide (matches filter d))
                            (collection c s) in
    (Return (match limit with Some n => take n hits | None => hits end), s).

(** Modelled from the spec: [insert(collection, document)] stores the
    serialized record at the end of the collection, under a generated
    identifier, and returns that identifier. *)
Definition insert (c : string) (d : document) : M t string :=
  fun s =>
    let id := object_id (next_id s) in
    (Return id,
     {| collections :=
          <[c := (collection c s ++ [<["_id" := VStr id]> d])%list]> (collections s);
        next_id := N.succ (next_id s) |}).

(** Modelled from the spec: a store without any document. *)
Definition empty : t := {| collections := ∅; next_id := 0 |}.

End Store.

#[global] Instance store_persistence : Persistence Store.t := {|
  create_document := Store.insert;
  get_documents := Store.find;
|}.

(** ** Concrete requests and stores *)

Definition ada : RegisterRequest.t :=
  RegisterRequest.Build "Ada" "ada@x.com" "secret".

Definition ada_login : LoginRequest.t := LoginRequest.Build "ada@x.com" "secret".

(** Conversions to run the listing on concrete stores: the spellings
    [true] and [false] are read as booleans, no text is read as a
    timestamp. *)
Definition sample_conversions : Conversions := {|
  bool_of_str := fun s =>
    if String.eqb s "true" then Some true
    else if String.eqb s "false" then Some false
    else None;
  datetime_of_str := fun _ => None;
|}.

(** A password made of the single surrogate U+D800. *)
Definition lone_surrogate : string :=
  String "237"%char (String "160"%char (String "128"%char EmptyString)).

(** The store after Ada registered on the empty store. *)
Definition ada_store : Store.t := snd (register ada Store.empty).

(** The user document that registration stored for Ada. *)
Definition ada_doc : document :=
  <["_id" := VStr "000000000000000000000000"]>
    (User.model_dump
       (User.Build "Ada" "ada@x.com" (hex_sha256 "secret") None true)).

(** ** Notions used to state the blog properties *)

(** The blog documents of a store that the listing query selects. *)
Definition published_docs (s : Store.t) : list document :=
  List.filter
    (fun d => bool_decide (Store.matches {["published" := VBool true]} d))
    (Store.collection "blogpost" s).

(** The store after the two example posts were created in it. *)
Definition seeded (now1 now2 : Z) (s : Store.t) : Store.t :=
  snd (for_each (examples now1 now2) (fun ex =>
         let* _ := create_document "blogpost" (BlogPost.model_dump ex) in
         ret tt) s).

(** The two example posts as stored when the counter of the store stands
    at [n]. *)
Definition seed_docs (now1 now2 : Z) (n : N) : list document :=
  match examples now1 now2 with
  | [ex1; ex2] =>
      [ <["_id" := VStr (Store.object_id n)]> (BlogPost.model_dump ex1);
        <["_id" := VStr (Store.object_id (N.succ n))]> (BlogPost.model_dump ex2) ]
  | _ => []
  end.

(** A store whose only blog document is an unpublished draft. *)
Definition draft_doc : document :=
  <["title" := VStr "Draft"]>
  (<["slug" := VStr "draft"]>
  (<["content" := VStr "Work in progress"]>
  (<["author" := VStr "Team"]>
  (<["published" := VBool false]> ∅)))).

Definition draft_store : Store.t :=
  {| Store.collections := {["blogpost" := [draft_doc]]}; Store.next_id := 0 |}.

(** A store whose only blog document leaves out [tags] and [published]. *)
Definition bare_doc : document :=
  <["title" := VStr "Bare"]>
  (<["slug" := VStr "bare"]>
  (<["content" := VStr "No tags, no flag"]>
  (<["author" := VStr "Team"]> ∅))).

Definition bare_store : Store.t :=
  {| Store.collections := {["blogpost" := [bare_doc]]}; Store.next_id := 0 |}.

(** A store holding one published blog document. *)
Definition news_doc : document :=
  <["title" := VStr "News"]>
  (<["slug" := VStr "news"]>
  (<["content" := VStr "Hello"]>
  (<["author" := VStr "Team"]>
  (<["published" := VBool true]> ∅)))).

Definition news_store : Store.t :=
  {| Store.collections := {["blogpost" := [news_doc]]}; Store.next_id := 0 |}.

(** A stand-in for the email check, used to run the routes on concrete
    bodies: it accepts, unchanged, the strings that contain [@]. *)
Fixpoint has_at (s : string) : bool :=
  match s with
  | EmptyString => false
  | String a s' => if Ascii.eqb a "@"%char then true else has_at s'
  end.

Definition sample_validate_email (s : string) : option string :=
  if has_at s then Some s else None.

(** A contact body without [message], and one with a malformed [email]. *)
Definition body_without_message : document :=
  <["name" := VStr "Ada"]> (<["email" := VStr "ada@x.com"]> ∅).

Definition body_bad_email : document :=
  <["name" := VStr "Ada"]>
  (<["email" := VStr "ada.x.com"]>
  (<["password" := VStr "secret"]>
  (<["message" := VStr "Hello"]> ∅))).

(** A post built with [tags] and [published] left out. *)
Definition plain_post : BlogPost.t :=
  BlogPost.init "Plain" "plain" None "Text" "Team" None None None.

(** ** Notions used to state further properties *)

(** [len(s)]: the number of characters (code points) of [s]. *)
Fixpoint len (s : string) : nat :=
  match s with
  | EmptyString => O
  | String a s' => if PyStr.is_continuation a then len s' else S (len s')
  end.

(** A lower-case hexadecimal digit. *)
Definition is_hex (a : ascii) : bool :=
  let n := Z.of_N (N_of_ascii a) in
  (((48 <=? n)%Z && (n <=? 57)%Z) || ((97 <=? n)%Z && (n <=? 102)%Z))%bool.

(** The emails carried by the user documents of a store, in store order. *)
Definition emails (s : Store.t) : list value :=
  omap (fun d : document => d !! "email") (Store.collection "user" s).

(** A store with two user documents that carry the same email. *)
Definition twin_first : document :=
  <["email" := VStr "twin@x.com"]>
  (<["name" := VStr "First"]>
  (<["password_hash" := VStr (hex_sha256 "one")]> ∅)).

Definition twin_second : document :=
  <["email" := VStr "twin@x.com"]>
  (<["name" := VStr "Second"]>
  (<["password_hash" := VStr (hex_sha256 "two")]> ∅)).

Definition twin_store : Store.t :=
  {| Store.collections := {["user" := [twin_first; twin_second]]};
     Store.next_id := 2 |}.

(** A store whose second blog document is published but has no title. *)
Definition untitled_doc : document :=
  <["slug" := VStr "untitled"]>
  (<["content" := VStr "Text"]>
  (<["author" := VStr "Team"]>
  (<["published" := VBool true]> ∅))).

Definition untitled_store : Store.t :=
  {| Store.collections := {["blogpost" := [news_doc; untitled_doc]]};
     Store.next_id := 2 |}.

(** The response object with the field values of a post. *)
Definition mirror (post : BlogPost.t) : BlogOut.t :=
  BlogOut.Build (BlogPost.title post) (BlogPost.slug post) (BlogPost.summary post)
                (BlogPost.content post) (BlogPost.author post) (BlogPost.tags post)
                (BlogPost.published post) (BlogPost.published_at post).

(** The store after a sequence of contact submissions. *)
Definition submit_all (payloads : list ContactRequest.t) (s : Store.t) : Store.t :=
  fold_left (fun s payload => snd (contact payload s)) payloads s.

(** An unpublished post. *)
Definition hidden_post : BlogPost.t :=
  BlogPost.init "Hidden" "hidden" None "Text" "Team" None (Some false) None.

(** Two identical contact requests. *)
Definition hello : ContactRequest.t :=
  ContactRequest.Build "Ada" "ada@x.com" None "Hello".

(** An adapter whose every call raises. *)
Definition unavailable : Persistence unit := {|
  create_document := fun _ _ => raise (Exception "Database not available");
  get_documents := fun _ _ _ => raise (Exception "Database not available");
|}.

(** An adapter over the store that refuses to read once the counter of
    the store has reached [cap]. *)
Definition read_capped (cap : N) : Persistence Store.t := {|
  create_document := Store.insert;
  get_documents := fun c f limit s =>
    if (cap <=? Store.next_id s)%N then (Raise (Exception "read refused"), s)
    else Store.find c f limit s;
|}.

(** An adapter over the store that refuses to create a document once the
    counter of the store has reached [cap]. *)
Definition capped (cap : N) : Persistence Store.t := {|
  create_document := fun c d s =>
    if (cap <=? Store.next_id s)%N then (Raise (Exception "quota exceeded"), s)
    else Store.insert c d s;
  get_documents := Store.find;
|}.

(** A stand-in for an email check that normalises: it accepts the strings
    that contain [@] and returns them in lower case. *)
Definition lower_char (a : ascii) : ascii :=
  let n := N_of_ascii a in
  if ((65 <=? n)%N && (n <=? 90)%N)%bool then ascii_of_N (n + 32) else a.

Fixpoint lower (s : string) : string :=
  match s with
  | EmptyString => EmptyString
  | String a s' => String (lower_char a) (lower s')
  end.

Definition sample_fold_email (s : string) : option string :=
  if has_at s then Some (lower s) else None.

Definition ada_register_body : document :=
  <["name" := VStr "Ada"]>
  (<["email" := VStr "Ada@X.COM"]>
  (<["password" := VStr "secret"]> ∅)).

Definition ada_login_body : document :=
  <["email" := VStr "ada@x.com"]> (<["password" := VStr "secret"]> ∅).

(** * Properties *)

(** ** The embedding on concrete inputs *)

Example sha256_abc :
  hash_password "abc"
  = Return "ba7816bf8f01cfea414140de5dae2223b00361a396177a9cb410ff61f20015ad".
Proof. vm_compute. reflexivity. Qed.

Example sha256_empty :
  hash_password ""
  = Return "e3b0c44298fc1c149afbf4c8996fb92427ae41e4649b934ca495991b7852b855".
Proof. vm_compute. reflexivity. Qed.

Example sha256_two_blocks :
  hash_password "abcdbcdecdefdefgefghfghighijhijkijkljklmklmnlmnomnopnopq"
  = Return "248d6a61d20638b8e5c026930c3e6039a33ce45964ff2167f6ecedd419db06c1".
Proof. vm_compute. reflexivity. Qed.

Example slice_counts_characters : PyStr.slice_to 3 "✅ Running" = "✅ R".
Proof. reflexivity. Qed.

Example test_database_connected :
  test_database
    (Some (Database.Build (Database.Attribute "appdb") (inr ["user"; "blogpost"])))
    (Some "mongodb://localhost")
  = Return (Diagnostics.Build "✅ Running" "✅ Connected & Working" (Some "✅ Set")
              (Some "appdb") "Connected" ["user"; "blogpost"]).
Proof. reflexivity. Qed.

Example test_database_erroring :
  test_database (Some (Database.Build Database.NoAttribute (inl "timed out"))) None
  = Return (Diagnostics.Build "✅ Running" "⚠️ Connected but Error: timed out"
              (Some "❌ Not Set") (Some "✅ Connected") "Connected" []).
Proof. reflexivity. Qed.

Example test_database_uninitialized :
  test_database None None
  = Return (Diagnostics.Build "✅ Running" "⚠️ Available but not initialized"
              None None "Not Connected" []).
Proof. reflexivity. Qed.

(** ** The store model *)

Lemma length_append (s1 s2 : string) :
  String.length (s1 +:+ s2) = (String.length s1 + String.length s2)%nat.
Proof. induction s1 as [|a s1 IH]; simpl; [done | by rewrite IH]. Qed.

Lemma hex_of_length (n : nat) (x : Z) : String.length (PyStr.hex_of n x) = n.
Proof.
  revert x. induction n as [|n IH]; intros x; simpl; [done|].
  rewrite length_append, IH. simpl. lia.
Qed.

Lemma object_id_nonempty (n : N) : Store.object_id n <> "".
Proof.
  intros E. apply (f_equal String.length) in E.
  unfold Store.object_id in E. rewrite hex_of_length in E. discriminate.
Qed.

Lemma matches_field (k : string) (v : value) (d : document) :
  Store.matches {[k := v]} d <-> d !! k = Some v.
Proof.
  unfold Store.matches.
  apply (map_Forall_singleton (fun k' v' => d !! k' = Some v')).
Qed.

Lemma collection_insert_eq (c : string) (d : document) (s : Store.t) :
  Store.collection c (snd (Store.insert c d s))
  = (Store.collection c s
     ++ [<["_id" := VStr (Store.object_id (Store.next_id s))]> d])%list.
Proof. unfold Store.collection, Store.insert. simpl. by rewrite lookup_insert_eq. Qed.

Lemma collection_insert_ne (c c' : string) (d : document) (s : Store.t) :
  c <> c' ->
  Store.collection c' (snd (Store.insert c d s)) = Store.collection c' s.
Proof.
  intros Hne. unfold Store.collection, Store.insert. simpl.
  by rewrite lookup_insert_ne.
Qed.

(** The documents of a collection that a filter selects. *)
Lemma find_all (c : string) (f : document) (s : Store.t) :
  Store.find c f None s
  = (Return (List.filter (fun d => bool_decide (Store.matches f d))
                         (Store.collection c s)), s).
Proof. reflexivity. Qed.

Lemma filter_nil_iff {A} (p : A -> bool) (l : list A) :
  List.filter p l = [] <-> forall x, x ∈ l -> p x = false.
Proof.
  induction l as [|a l IH]; simpl.
  - split; [intros _ x Hx; inversion Hx | done].
  - destruct (p a) eqn:Ha.
    + split; [done|]. intros H. specialize (H a (list_elem_of_here _ _)). congruence.
    + rewrite IH. split.
      * intros H x Hx. inversion Hx; subst; auto.
      * intros H x Hx. apply H. by constructor.
Qed.

(** With [limit=1] the result is empty exactly when no document of the
    collection has the wanted field value. *)
Lemma find_one_nil (c k : string) (v : value) (s : Store.t) :
  fst (Store.find c {[k := v]} (Some 1%nat) s) = Return []
  <-> forall d, d ∈ Store.collection c s -> d !! k <> Some v.
Proof.
  unfold Store.find. simpl.
  set (hits := List.filter _ _).
  assert (Hnil : hits = [] <-> forall d, d ∈ Store.collection c s -> d !! k <> Some v).
  { unfold hits. rewrite filter_nil_iff. apply forall_proper; intros d.
    rewrite bool_decide_eq_false, matches_field. done. }
  rewrite <- Hnil. destruct hits; simpl; split; congruence.
Qed.

Lemma find_state (c : string) (f : document) (limit : option nat) (s : Store.t) :
  snd (Store.find c f limit s) = s.
Proof. reflexivity. Qed.

Lemma find_pair (c : string) (f : document) (limit : option nat) (s : Store.t) :
  Store.find c f limit s = (fst (Store.find c f limit s), s).
Proof. reflexivity. Qed.

(** With [limit=1] and a document holding the wanted field value, the
    result is one such document. *)
Lemma find_one_cons (c k : string) (v : value) (s : Store.t) :
  (exists d, d ∈ Store.collection c s /\ d !! k = Some v) ->
  exists d, fst (Store.find c {[k := v]} (Some 1%nat) s) = Return [d]
            /\ d ∈ Store.collection c s /\ d !! k = Some v.
Proof.
  intros (d0 & Hin & Hk). unfold Store.find. simpl.
  destruct (List.filter _ _) as [|d hits] eqn:Hf.
  - apply filter_nil_iff with (x := d0) in Hf; [|done].
    apply bool_decide_eq_false in Hf. by rewrite matches_field in Hf.
  - exists d. split; [by destruct hits|].
    assert (Hd : In d (List.filter (fun d => bool_decide (Store.matches {[k := v]} d))
                                   (Store.collection c s))).
    { rewrite Hf. by left. }
    apply List.filter_In in Hd as [Hd1 Hd2].
    apply bool_decide_eq_true in Hd2. rewrite matches_field in Hd2.
    by rewrite list_elem_of_In.
Qed.

(** ** Registration *)

Lemma hash_password_encodable (P : string) :
  PyStr.first_surrogate 0 P = None -> hash_password P = Return (hex_sha256 P).
Proof. intros H. unfold hash_password, encode_utf8. by rewrite H. Qed.

Lemma hash_password_surrogate (P : string) (i : nat) :
  PyStr.first_surrogate 0 P = Some i -> hash_password P = Raise (UnicodeEncodeError i).
Proof. intros H. unfold hash_password, encode_utf8. by rewrite H. Qed.

Lemma register_new (s : Store.t) (N E P h : string) :
  (forall d, d ∈ Store.collection "user" s -> d !! "email" <> Some (VStr E)) ->
  hash_password P = Return h ->
  register (RegisterRequest.Build N E P) s
  = (Return (RegisterResponse.Build true (Store.object_id (Store.next_id s))),
     snd (Store.insert "user" (User.model_dump (User.Build N E h None true)) s)).
Proof.
  intros Hnew Hh. apply find_one_nil in Hnew.
  unfold register, bind, lift.
  cbn [get_documents create_document store_persistence RegisterRequest.email
       RegisterRequest.password].
  rewrite find_pair, Hnew. cbn [list_truthy]. rewrite Hh. reflexivity.
Qed.

Lemma register_unencodable (s : Store.t) (N E P : string) (e : exn) :
  (forall d, d ∈ Store.collection "user" s -> d !! "email" <> Some (VStr E)) ->
  hash_password P = Raise e ->
  register (RegisterRequest.Build N E P) s = (Raise e, s).
Proof.
  intros Hnew Hh. apply find_one_nil in Hnew.
  unfold register, bind, lift.
  cbn [get_documents create_document store_persistence RegisterRequest.email
       RegisterRequest.password].
  rewrite find_pair, Hnew. cbn [list_truthy]. rewrite Hh. reflexivity.
Qed.

Lemma register_taken (s : Store.t) (N E P : string) :
  (exists d, d ∈ Store.collection "user" s /\ d !! "email" = Some (VStr E)) ->
  register (RegisterRequest.Build N E P) s
  = (Raise (HTTPException 400 "Email already registered"), s).
Proof.
  intros Htaken. apply find_one_cons in Htaken as (d & Hfind & _).
  unfold register, bind. cbn [get_documents create_document store_persistence].
  rewrite find_pair. cbn [RegisterRequest.email]. rewrite Hfind. reflexivity.
Qed.


Lemma empty_collection (c : string) : Store.collection c Store.empty = [].
Proof. reflexivity. Qed.



Lemma hash_secret : hash_password "secret" = Return (hex_sha256 "secret").
Proof. by apply hash_password_encodable. Qed.

Lemma ada_store_users : Store.collection "user" ada_store = [ada_doc].
Proof.
  unfold ada_store, ada.
  rewrite (register_new Store.empty "Ada" "ada@x.com" "secret" (hex_sha256 "secret"));
    [| intros d Hd; inversion Hd | exact hash_secret].
  cbn [snd]. rewrite collection_insert_eq, empty_collection. reflexivity.
Qed.

Lemma ada_registers :
  register ada Store.empty
  = (Return (RegisterResponse.Build true "000000000000000000000000"), ada_store).
Proof.
  unfold ada_store, ada.
  rewrite (register_new Store.empty "Ada" "ada@x.com" "secret" (hex_sha256 "secret"));
    [reflexivity | intros d Hd; inversion Hd | exact hash_secret].
Qed.


(** ** Login *)

Lemma find_one_after_insert (c k : string) (v : value) (doc : document) (s : Store.t) :
  (forall d, d ∈ Store.collection c s -> d !! k <> Some v) ->
  (<["_id" := VStr (Store.object_id (Store.next_id s))]> doc) !! k = Some v ->
  fst (Store.find c {[k := v]} (Some 1%nat) (snd (Store.insert c doc s)))
  = Return [<["_id" := VStr (Store.object_id (Store.next_id s))]> doc].
Proof.
  intros Hnone Hdoc. unfold Store.find. cbn [fst].
  rewrite collection_insert_eq, List.filter_app.
  replace (List.filter _ (Store.collection c s)) with (@nil document).
  - cbn [List.filter app]. rewrite bool_decide_eq_true_2; [done|].
    by apply matches_field.
  - symmetry. apply filter_nil_iff. intros d Hd.
    apply bool_decide_eq_false. rewrite matches_field. by apply Hnone.
Qed.

(** C2. When registering [{name: N, email: E, password: P}] succeeds, a
    login with [{email: E, password: P}] on the resulting store returns
    [{ok: true, name: N, email: E}]: the hash of the supplied password is
    recomputed and equals the stored one. *)
Theorem login_after_register (s s1 : Store.t) (N E P : string)
    (r : RegisterResponse.t) :
  register (RegisterRequest.Build N E P) s = (Return r, s1) ->
  login (LoginRequest.Build E P) s1
  = (Return (LoginResponse.Build true (VStr N) (VStr E)), s1).
Proof.
  intros Hreg.
  assert (Hinv : (forall d, d ∈ Store.collection "user" s ->
                            d !! "email" <> Some (VStr E))
                 /\ exists h, hash_password P = Return h).
  { revert Hreg. unfold register, bind, lift.
    cbn [get_documents store_persistence RegisterRequest.email
         RegisterRequest.password].
    rewrite find_pair.
    destruct (fst (Store.find "user" {["email" := VStr E]} (Some 1%nat) s))
      as [[|d l]|e] eqn:Hfind; [|discriminate..].
    cbn [list_truthy]. destruct (hash_password P) as [h|e]; [|discriminate].
    intros _. split; [by apply find_one_nil | by exists h]. }
  destruct Hinv as [Hnew [h Hh]].
  rewrite (register_new s N E P h Hnew Hh) in Hreg.
  assert (Hs1 : s1 = snd (Store.insert "user"
            (User.model_dump (User.Build N E h None true)) s))
    by congruence.
  rewrite Hs1. unfold login, bind, lift.
  cbn [get_documents store_persistence LoginRequest.email LoginRequest.password].
  rewrite find_pair, (find_one_after_insert "user" "email" (VStr E)) by done.
  rewrite Hh.
  change (dict_get _ "password_hash" VNone) with (VStr h).
  rewrite bool_decide_eq_false_2 by (intros Hne; by apply Hne).
  reflexivity.
Qed.

Lemma login_after_register_witness :
  register ada Store.empty
  = (Return (RegisterResponse.Build true "000000000000000000000000"), ada_store)
  /\ login ada_login ada_store
     = (Return (LoginResponse.Build true (VStr "Ada") (VStr "ada@x.com")), ada_store).
Proof.
  split; [exact ada_registers|].
  exact (login_after_register Store.empty ada_store "Ada" "ada@x.com" "secret" _
           ada_registers).
Defined.

Section LoginFailures.
Context {S : Type} `{!Persistence S}.


End LoginFailures.

Lemma hash_guess : hash_password "guess" = Return (hex_sha256 "guess").
Proof. by apply hash_password_encodable. Qed.

Lemma guess_differs : hex_sha256 "guess" <> hex_sha256 "secret".
Proof. vm_compute. discriminate. Qed.


(** ** Blog listing *)

Lemma collect_pure_state {A B} (f : A -> outcome B) (l : list A) (s : Store.t) :
  snd (collect l (fun p s => (f p, s)) s) = s.
Proof.
  induction l as [|a l IH]; [done|].
  cbn [collect]. unfold bind at 1. destruct (f a); [|done].
  unfold bind. destruct (collect l _ s) as [[bs|e] s'] eqn:Hc;
    cbn [snd] in IH; by subst.
Qed.

Lemma collect_pure_return {A B} (f : A -> outcome B) (l : list A) (s : Store.t)
    (outs : list B) :
  fst (collect l (fun p s => (f p, s)) s) = Return outs
  <-> Forall2 (fun d b => f d = Return b) l outs.
Proof.
  revert outs. induction l as [|a l IH]; intros outs.
  - cbn. split.
    + intros [= <-]. constructor.
    + intros H. by inversion H.
  - cbn [collect]. unfold bind at 1. destruct (f a) as [b|e] eqn:Ha.
    + unfold bind. destruct (collect l _ s) as [[bs|e] s'] eqn:Hc; cbn [fst] in *.
      * split.
        -- cbn. intros [= <-]. constructor; [done|]. by apply IH.
        -- intros H. inversion H as [|? b' ? bs' Hb Hbs]; subst.
           apply IH in Hbs. cbn. congruence.
      * split; [done|]. intros H. inversion H as [|? b' ? bs' Hb Hbs]; subst.
        apply IH in Hbs. congruence.
    + cbn. split; [done|]. intros H. inversion H; congruence.
Qed.

Lemma published_docs_nil (s : Store.t) :
  published_docs s = []
  <-> forall d, d ∈ Store.collection "blogpost" s ->
                d !! "published" <> Some (VBool true).
Proof.
  unfold published_docs. rewrite filter_nil_iff.
  apply forall_proper; intros d.
  by rewrite bool_decide_eq_false, matches_field.
Qed.

Lemma published_docs_published (s : Store.t) (d : document) :
  d ∈ published_docs s ->
  d ∈ Store.collection "blogpost" s /\ d !! "published" = Some (VBool true).
Proof.
  unfold published_docs. rewrite list_elem_of_In, List.filter_In.
  rewrite bool_decide_eq_true, matches_field, <- list_elem_of_In. tauto.
Qed.

Lemma seeded_collection (now1 now2 : Z) (s : Store.t) :
  Store.collection "blogpost" (seeded now1 now2 s)
  = (Store.collection "blogpost" s
     ++ seed_docs now1 now2 (Store.next_id s))%list.
Proof.
  unfold seeded, examples, for_each, bind.
  cbn [create_document store_persistence].
  change (Store.insert ?c ?d ?s) with
    (Return (Store.object_id (Store.next_id s)), snd (Store.insert c d s)).
  cbn [ret snd]. rewrite !collection_insert_eq, <- app_assoc. reflexivity.
Qed.

Lemma seeded_other (now1 now2 : Z) (s : Store.t) (c : string) :
  c <> "blogpost" ->
  Store.collection c (seeded now1 now2 s) = Store.collection c s.
Proof.
  intros Hc. unfold seeded, examples, for_each, bind.
  cbn [create_document store_persistence].
  change (Store.insert ?c ?d ?s) with
    (Return (Store.object_id (Store.next_id s)), snd (Store.insert c d s)).
  cbn [ret snd]. by rewrite !collection_insert_ne.
Qed.

Lemma seeded_published (now1 now2 : Z) (s : Store.t) :
  published_docs (seeded now1 now2 s)
  = (published_docs s
     ++ seed_docs now1 now2 (Store.next_id s))%list.
Proof.
  unfold published_docs. rewrite seeded_collection, List.filter_app.
  f_equal.
Qed.

(** The listing on a store with a published blog document maps the
    selected documents and leaves the store alone. *)
Lemma list_blogs_listed {conv : Conversions} (now1 now2 : Z) (s : Store.t) :
  published_docs s <> [] ->
  list_blogs now1 now2 s
  = collect (published_docs s) (fun p s => (blog_out p, s)) s.
Proof.
  intros Hne. unfold list_blogs.
  cbn [get_documents store_persistence]. unfold bind at 1.
  rewrite find_all. fold (published_docs s).
  destruct (published_docs s) as [|d l] eqn:Hp; [done|].
  reflexivity.
Qed.

(** The listing on a store without a published blog document first
    creates the two examples. *)
Lemma list_blogs_seeds {conv : Conversions} (now1 now2 : Z) (s : Store.t) :
  published_docs s = [] ->
  list_blogs now1 now2 s
  = collect (published_docs (seeded now1 now2 s)) (fun p s => (blog_out p, s))
            (seeded now1 now2 s).
Proof.
  intros Hnil. unfold list_blogs.
  cbn [get_documents store_persistence]. unfold bind at 1.
  rewrite find_all. fold (published_docs s).
  rewrite Hnil. cbn [list_truthy]. unfold bind at 1. unfold bind at 1.
  reflexivity.
Qed.

Lemma collect_seed_docs {conv : Conversions}
    (now1 now2 : Z) (n : N) (st : Store.t) :
  exists b1 b2,
    collect (seed_docs now1 now2 n) (fun p s => (blog_out p, s)) st
    = (Return [b1; b2], st)
    /\ b1 = BlogOut.Build
              "Launching our pastel fintech platform"
              "launching-pastel-fintech"
              (Some "A soft, modern take on digital banking.")
              "We are excited to introduce a gentle, human fintech experience..."
              "Team" ["announcement"; "fintech"] true (Some now1)
    /\ b2 = BlogOut.Build
              "How we price simply and fairly"
              "simple-fair-pricing"
              (Some "Transparent plans that scale with you.")
              "No hidden fees. Just clear tiers designed for growth..."
              "Team" ["pricing"; "product"] true (Some now2).
Proof. eexists _, _. split; [|split]; reflexivity. Qed.

(** C4. On a store whose blog collection is empty, the listing returns
    exactly two posts, with slugs [launching-pastel-fintech] and
    [simple-fair-pricing], and leaves two blog documents in the store; any
    later listing on the resulting store returns the same two posts and
    leaves that store as it is. *)
Theorem list_blogs_seeds_once {conv : Conversions}
    (s : Store.t) (now1 now2 : Z) :
  Store.collection "blogpost" s = [] ->
  exists b1 b2 s1,
    list_blogs now1 now2 s = (Return [b1; b2], s1)
    /\ BlogOut.slug b1 = "launching-pastel-fintech"
    /\ BlogOut.slug b2 = "simple-fair-pricing"
    /\ length (Store.collection "blogpost" s1) = 2%nat
    /\ forall now3 now4, list_blogs now3 now4 s1 = (Return [b1; b2], s1).
Proof.
  intros Hempty.
  assert (Hnil : published_docs s = []).
  { unfold published_docs. by rewrite Hempty. }
  destruct (collect_seed_docs now1 now2 (Store.next_id s) (seeded now1 now2 s))
    as (b1 & b2 & Hrun & -> & ->).
  eexists _, _, (seeded now1 now2 s). split; [|split; [|split; [|split]]].
  - rewrite list_blogs_seeds, seeded_published, Hnil by done. exact Hrun.
  - reflexivity.
  - reflexivity.
  - by rewrite seeded_collection, Hempty.
  - intros now3 now4. rewrite list_blogs_listed.
    + rewrite seeded_published, Hnil. exact Hrun.
    + by rewrite seeded_published, Hnil.
Qed.

Lemma list_blogs_seeds_once_witness :
  Store.collection "blogpost" Store.empty = []
  /\ exists b1 b2 s1,
       list_blogs (conv := sample_conversions) 1700000000 1700000001 Store.empty
       = (Return [b1; b2], s1)
       /\ BlogOut.slug b1 = "launching-pastel-fintech"
       /\ BlogOut.slug b2 = "simple-fair-pricing"
       /\ length (Store.collection "blogpost" s1) = 2%nat
       /\ forall now3 now4,
            list_blogs (conv := sample_conversions) now3 now4 s1
            = (Return [b1; b2], s1).
Proof.
  split; [reflexivity|].
  exact (list_blogs_seeds_once Store.empty 1700000000 1700000001 eq_refl).
Defined.

(** A constructor call that returns has read every argument at the type
    its field declares. *)
Lemma BlogOut_init_Return {conv : Conversions}
    (ti sl su co au ta pu pa : value) (b : BlogOut.t) :
  BlogOut.init ti sl su co au ta pu pa = Return b ->
  as_str ti = Some (BlogOut.title b)
  /\ as_str sl = Some (BlogOut.slug b)
  /\ as_str_list ta = Some (BlogOut.tags b)
  /\ as_bool pu = Some (BlogOut.published b).
Proof.
  unfold BlogOut.init.
  destruct (as_str ti), (as_str sl), (as_opt_str su), (as_str co), (as_str au),
    (as_str_list ta), (as_bool pu), (as_opt_datetime pa);
    intros Hb; try discriminate Hb.
  by injection Hb as <-.
Qed.

Lemma blog_out_published {conv : Conversions} (d : document) (b : BlogOut.t) :
  d !! "published" = Some (VBool true) ->
  blog_out d = Return b -> BlogOut.published b = true.
Proof.
  intros Hp Hb. apply BlogOut_init_Return in Hb as (_ & _ & _ & Hb).
  unfold dict_get in Hb. rewrite Hp in Hb. by injection Hb.
Qed.

Lemma blog_out_tags_default {conv : Conversions}
    (d : document) (b : BlogOut.t) :
  d !! "tags" = None ->
  blog_out d = Return b -> BlogOut.tags b = [].
Proof.
  intros Ht Hb. apply BlogOut_init_Return in Hb as (_ & _ & Hb & _).
  unfold dict_get in Hb. rewrite Ht in Hb. by injection Hb.
Qed.

(** What a listing that returns has done: the store is the one it started
    from or that store with the two examples created, and the objects
    returned are the images of the blog documents the query selects in it. *)
Lemma list_blogs_returns {conv : Conversions}
    (s s' : Store.t) (now1 now2 : Z) (outs : list BlogOut.t) :
  list_blogs now1 now2 s = (Return outs, s') ->
  Forall2 (fun d b => blog_out d = Return b) (published_docs s') outs
  /\ (s' = s \/ published_docs s = [] /\ s' = seeded now1 now2 s).
Proof.
  intros Hrun. destruct (published_docs s) as [|d0 l0] eqn:Hp.
  - rewrite list_blogs_seeds in Hrun by done.
    assert (Hs : s' = seeded now1 now2 s).
    { rewrite <- (collect_pure_state blog_out
                   (published_docs (seeded now1 now2 s)) (seeded now1 now2 s)).
      by rewrite Hrun. }
    subst s'. split; [|by right].
    apply (collect_pure_return blog_out _ (seeded now1 now2 s)). by rewrite Hrun.
  - rewrite list_blogs_listed in Hrun by (by rewrite Hp).
    assert (Hs : s' = s).
    { rewrite <- (collect_pure_state blog_out (published_docs s) s).
      by rewrite Hrun. }
    subst s'. split; [|by left].
    apply (collect_pure_return blog_out _ s). by rewrite Hrun.
Qed.

Lemma Forall2_Forall_right {A B} (P : A -> B -> Prop) (Q : A -> Prop)
    (R : B -> Prop) (l : list A) (k : list B) :
  Forall2 P l k -> (forall a, a ∈ l -> Q a) ->
  (forall a b, Q a -> P a b -> R b) -> Forall R k.
Proof.
  intros H HQ HR. induction H as [|a b l k Hab _ IH]; constructor.
  - apply (HR a); [apply HQ; constructor | done].
  - apply IH. intros a' Ha'. apply HQ. by constructor.
Qed.

(** C10. Every object a listing returns has [published = true]. *)
Theorem list_blogs_only_published {conv : Conversions}
    (s s' : Store.t) (now1 now2 : Z)
    (outs : list BlogOut.t) :
  list_blogs now1 now2 s = (Return outs, s') ->
  Forall (fun b => BlogOut.published b = true) outs.
Proof.
  intros Hrun. apply list_blogs_returns in Hrun as [Hmap _].
  apply (Forall2_Forall_right _
           (fun d => d !! "published" = Some (VBool true)) _ _ _ Hmap).
  - intros d Hd. by apply published_docs_published in Hd as [_ Hd].
  - intros d b. apply blog_out_published.
Qed.

Lemma news_store_listing :
  list_blogs (conv := sample_conversions) 0 0 news_store
  = (Return [BlogOut.Build "News" "news" None "Hello" "Team" [] true None],
     news_store).
Proof.
  assert (Hdocs : published_docs news_store = [news_doc]) by reflexivity.
  rewrite list_blogs_listed by (rewrite Hdocs; discriminate).
  rewrite Hdocs. reflexivity.
Qed.

Lemma list_blogs_only_published_witness :
  list_blogs (conv := sample_conversions) 0 0 news_store
  = (Return [BlogOut.Build "News" "news" None "Hello" "Team" [] true None],
     news_store)
  /\ Forall (fun b => BlogOut.published b = true)
            [BlogOut.Build "News" "news" None "Hello" "Team" [] true None].
Proof.
  split; [exact news_store_listing|].
  exact (list_blogs_only_published news_store news_store 0 0 _ news_store_listing).
Defined.

Lemma list_blogs_state {conv : Conversions} (s : Store.t) (now1 now2 : Z) :
  snd (list_blogs now1 now2 s)
  = match published_docs s with
    | [] => seeded now1 now2 s
    | _ :: _ => s
    end.
Proof.
  destruct (published_docs s) as [|d l] eqn:Hp.
  - rewrite list_blogs_seeds by done. apply collect_pure_state.
  - rewrite list_blogs_listed by (by rewrite Hp). apply collect_pure_state.
Qed.

(** C5, as stated, fails on a store whose only blog document is an
    unpublished draft: the collection is not empty, yet the listing creates
    the two examples. *)
Lemma list_blogs_seeds_beside_draft :
  Store.collection "blogpost" draft_store = [draft_doc]
  /\ Store.collection "blogpost" draft_store <> []
  /\ length (Store.collection "blogpost"
               (snd (list_blogs (conv := sample_conversions) 0 0 draft_store)))
     = 3%nat
  /\ snd (list_blogs (conv := sample_conversions) 0 0 draft_store) <> draft_store.
Proof.
  assert (Hlen : length (Store.collection "blogpost"
                           (snd (list_blogs (conv := sample_conversions) 0 0
                                            draft_store)))
                 = 3%nat).
  { rewrite list_blogs_state.
    change (published_docs draft_store) with (@nil document).
    cbv iota. by rewrite seeded_collection. }
  split; [reflexivity|]. split; [discriminate|]. split; [exact Hlen|].
  intros Heq. rewrite Heq in Hlen. discriminate Hlen.
Qed.

(** C5, amended. The listing creates the two example posts exactly when no
    blog document of the store has [published = true]: if some blog document
    is published the store is left as it is; if none is, the two examples
    are appended to the blog collection and every other collection is left
    as it is. *)
Theorem list_blogs_seeds_iff_none_published {conv : Conversions}
    (s : Store.t) (now1 now2 : Z) :
  ((exists d, d ∈ Store.collection "blogpost" s
              /\ d !! "published" = Some (VBool true)) ->
   snd (list_blogs now1 now2 s) = s)
  /\
  ((forall d, d ∈ Store.collection "blogpost" s ->
              d !! "published" <> Some (VBool true)) ->
   Store.collection "blogpost" (snd (list_blogs now1 now2 s))
   = (Store.collection "blogpost" s
      ++ seed_docs now1 now2 (Store.next_id s))%list
   /\ forall c, c <> "blogpost" ->
        Store.collection c (snd (list_blogs now1 now2 s)) = Store.collection c s).
Proof.
  rewrite list_blogs_state. split.
  - intros (d & Hd & Hp).
    destruct (published_docs s) as [|d0 l] eqn:Hdocs; [|done].
    by destruct (proj1 (published_docs_nil s) Hdocs d Hd).
  - intros Hnone. apply (proj2 (published_docs_nil s)) in Hnone. rewrite Hnone.
    split; [apply seeded_collection|].
    intros c Hc. by apply seeded_other.
Qed.

Lemma list_blogs_seeds_iff_none_published_witness :
  ((exists d, d ∈ Store.collection "blogpost" news_store
              /\ d !! "published" = Some (VBool true))
   /\ snd (list_blogs (conv := sample_conversions) 0 0 news_store) = news_store)
  /\
  ((forall d, d ∈ Store.collection "blogpost" draft_store ->
              d !! "published" <> Some (VBool true))
   /\ Store.collection "blogpost"
        (snd (list_blogs (conv := sample_conversions) 0 0 draft_store))
      = draft_doc :: seed_docs 0 0 0).
Proof.
  assert (H1 : exists d, d ∈ Store.collection "blogpost" news_store
                         /\ d !! "published" = Some (VBool true)).
  { exists news_doc. split; [|reflexivity].
    change (Store.collection "blogpost" news_store) with [news_doc]. constructor. }
  assert (H2 : forall d, d ∈ Store.collection "blogpost" draft_store ->
                         d !! "published" <> Some (VBool true)).
  { intros d Hd. change (Store.collection "blogpost" draft_store) with [draft_doc] in Hd.
    apply list_elem_of_singleton in Hd as ->. discriminate. }
  split; split.
  - exact H1.
  - exact (proj1 (list_blogs_seeds_iff_none_published news_store 0 0) H1).
  - exact H2.
  - exact (proj1 (proj2 (list_blogs_seeds_iff_none_published draft_store 0 0) H2)).
Defined.

(** ** Defaults of the listing *)

Lemma as_opt_str_opt_str (o : option string) : as_opt_str (opt_str o) = Some o.
Proof. by destruct o. Qed.

Lemma as_opt_datetime_opt_datetime {conv : Conversions} (o : option Z) :
  as_opt_datetime (opt_datetime o) = Some o.
Proof. by destruct o. Qed.

Lemma as_str_list_strs (l : list string) : as_str_list (VList (VStr <$> l)) = Some l.
Proof.
  cbn [as_str_list]. induction l as [|x l IH]; [done|].
  cbn [fmap list_fmap mapM] in *. cbn [as_str]. rewrite IH. reflexivity.
Qed.

(** A stored [BlogPost] record is read back field by field. *)
Lemma blog_out_model_dump {conv : Conversions}
    (post : BlogPost.t) (id : string) :
  blog_out (<["_id" := VStr id]> (BlogPost.model_dump post))
  = Return (BlogOut.Build (BlogPost.title post) (BlogPost.slug post)
              (BlogPost.summary post) (BlogPost.content post)
              (BlogPost.author post) (BlogPost.tags post)
              (BlogPost.published post) (BlogPost.published_at post)).
Proof.
  unfold blog_out.
  change (dict_get _ "title" VNone) with (VStr (BlogPost.title post)).
  change (dict_get _ "slug" VNone) with (VStr (BlogPost.slug post)).
  change (dict_get _ "summary" VNone) with (opt_str (BlogPost.summary post)).
  change (dict_get _ "content" VNone) with (VStr (BlogPost.content post)).
  change (dict_get _ "author" VNone) with (VStr (BlogPost.author post)).
  change (dict_get _ "tags" (VList [])) with (VList (VStr <$> BlogPost.tags post)).
  change (dict_get _ "published" (VBool true)) with (VBool (BlogPost.published post)).
  change (dict_get _ "published_at" VNone)
    with (opt_datetime (BlogPost.published_at post)).
  unfold BlogOut.init.
  rewrite as_opt_str_opt_str, as_str_list_strs, as_opt_datetime_opt_datetime.
  reflexivity.
Qed.

Lemma Forall2_impl_elem {A B} (P Q : A -> B -> Prop) (l : list A) (k : list B) :
  Forall2 P l k -> (forall a b, a ∈ l -> P a b -> Q a b) -> Forall2 Q l k.
Proof.
  intros H HPQ. induction H as [|a b l k Hab _ IH]; constructor.
  - apply HPQ; [constructor | done].
  - apply IH. intros a' b' Ha'. apply HPQ. by constructor.
Qed.

Lemma Forall2_elem_left {A B} (P : A -> B -> Prop) (l : list A) (k : list B) (a : A) :
  Forall2 P l k -> a ∈ l -> exists b, b ∈ k /\ P a b.
Proof.
  intros H. induction H as [|a0 b0 l k Hab _ IH]; intros Ha.
  - inversion Ha.
  - apply elem_of_cons in Ha as [->|Ha].
    + exists b0. split; [constructor | done].
    + destruct (IH Ha) as (b & Hb & HP). exists b. split; [by constructor | done].
Qed.

(** C6, as stated, fails for [published]: a stored blog document that
    leaves the field out is read as published by the mapping, but the
    listing does not return it. *)
Lemma unflagged_document_not_listed :
  Store.collection "blogpost" bare_store = [bare_doc]
  /\ bare_doc !! "published" = None
  /\ blog_out (conv := sample_conversions) bare_doc
     = Return (BlogOut.Build "Bare" "bare" None "No tags, no flag" "Team" [] true None)
  /\ exists outs,
       fst (list_blogs (conv := sample_conversions) 0 0 bare_store) = Return outs
       /\ BlogOut.slug <$> outs = ["launching-pastel-fintech"; "simple-fair-pricing"].
Proof.
  split; [reflexivity|]. split; [reflexivity|]. split; [reflexivity|].
  destruct (collect_seed_docs (conv := sample_conversions) 0 0 0
              (seeded 0 0 bare_store)) as (b1 & b2 & Hrun & -> & ->).
  eexists. split.
  - rewrite list_blogs_seeds by reflexivity.
    rewrite seeded_published.
    change (published_docs bare_store) with (@nil document).
    cbn [app]. change (Store.next_id bare_store) with 0%N. by rewrite Hrun.
  - reflexivity.
Qed.

(** C6, amended. Every object a listing returns is the image of a stored
    blog document whose [published] field is present and true, so a
    document that leaves [published] out is not returned; the object has
    [published = true], and [tags = []] when the document leaves [tags]
    out.  A [BlogPost] built with [tags] and [published] left out takes the
    schema defaults, and once created in the store it is returned by the
    listing with [tags = []] and [published = true]. *)
Theorem listing_defaults {conv : Conversions} :
  (forall (s s' : Store.t) (now1 now2 : Z) (outs : list BlogOut.t),
     list_blogs now1 now2 s = (Return outs, s') ->
     Forall2 (fun d b =>
                d ∈ Store.collection "blogpost" s'
                /\ d !! "published" = Some (VBool true)
                /\ blog_out d = Return b
                /\ BlogOut.published b = true
                /\ (d !! "tags" = None -> BlogOut.tags b = []))
             (published_docs s') outs)
  /\
  (forall (s s2 : Store.t) (title slug content author : string)
          (summary : option string) (published_at : option Z)
          (now1 now2 : Z) (outs : list BlogOut.t),
     list_blogs now1 now2
       (snd (create_document "blogpost"
               (BlogPost.model_dump
                  (BlogPost.init title slug summary content author
                                 None None published_at)) s))
     = (Return outs, s2) ->
     BlogOut.Build title slug summary content author [] true published_at ∈ outs).
Proof.
  split.
  - intros s s' now1 now2 outs Hrun.
    apply list_blogs_returns in Hrun as [Hmap _].
    apply (Forall2_impl_elem _ _ _ _ Hmap). intros d b Hd Hb.
    apply published_docs_published in Hd as [Hd Hp].
    split; [done|]. split; [done|]. split; [done|].
    split; [by apply (blog_out_published d) |].
    intros Ht. by apply (blog_out_tags_default d).
  - intros s s2 title slug content author summary published_at now1 now2 outs.
    cbn [create_document store_persistence].
    set (post := BlogPost.init title slug summary content author None None published_at).
    set (d := <["_id" := VStr (Store.object_id (Store.next_id s))]>
                (BlogPost.model_dump post)).
    set (s1 := snd (Store.insert "blogpost" (BlogPost.model_dump post) s)).
    intros Hrun.
    assert (Hd : d ∈ published_docs s1).
    { unfold published_docs, s1. rewrite collection_insert_eq.
      rewrite list_elem_of_In, List.filter_In, <- list_elem_of_In.
      split; [apply elem_of_app; right; constructor|].
      apply bool_decide_eq_true, matches_field. reflexivity. }
    rewrite list_blogs_listed in Hrun by (intros Hnil; rewrite Hnil in Hd; inversion Hd).
    assert (Hmap : Forall2 (fun d b => blog_out d = Return b) (published_docs s1) outs).
    { apply (collect_pure_return blog_out _ s1). by rewrite Hrun. }
    destruct (Forall2_elem_left _ _ _ _ Hmap Hd) as (b & Hb & Hout).
    unfold d in Hout. rewrite blog_out_model_dump in Hout.
    by injection Hout as <-.
Qed.

Lemma plain_listing :
  list_blogs (conv := sample_conversions) 0 0
    (snd (create_document "blogpost" (BlogPost.model_dump plain_post) Store.empty))
  = (Return [BlogOut.Build "Plain" "plain" None "Text" "Team" [] true None],
     snd (create_document "blogpost" (BlogPost.model_dump plain_post) Store.empty)).
Proof.
  cbn [create_document store_persistence].
  assert (Hdocs : published_docs
            (snd (Store.insert "blogpost" (BlogPost.model_dump plain_post) Store.empty))
          = [<["_id" := VStr (Store.object_id 0)]> (BlogPost.model_dump plain_post)]).
  { unfold published_docs. rewrite collection_insert_eq, empty_collection.
    cbn [app List.filter].
    rewrite bool_decide_eq_true_2 by (apply matches_field; reflexivity).
    reflexivity. }
  rewrite list_blogs_listed by (rewrite Hdocs; discriminate).
  rewrite Hdocs. cbn [collect]. unfold bind.
  rewrite blog_out_model_dump. reflexivity.
Qed.

Lemma listing_defaults_witness :
  (list_blogs (conv := sample_conversions) 0 0 news_store
   = (Return [BlogOut.Build "News" "news" None "Hello" "Team" [] true None],
      news_store)
   /\ Forall2 (fun d b =>
                d ∈ Store.collection "blogpost" news_store
                /\ d !! "published" = Some (VBool true)
                /\ blog_out (conv := sample_conversions) d = Return b
                /\ BlogOut.published b = true
                /\ (d !! "tags" = None -> BlogOut.tags b = []))
             (published_docs news_store)
             [BlogOut.Build "News" "news" None "Hello" "Team" [] true None])
  /\
  (list_blogs (conv := sample_conversions) 0 0
     (snd (create_document "blogpost" (BlogPost.model_dump plain_post) Store.empty))
   = (Return [BlogOut.Build "Plain" "plain" None "Text" "Team" [] true None],
      snd (create_document "blogpost" (BlogPost.model_dump plain_post) Store.empty))
   /\ BlogOut.Build "Plain" "plain" None "Text" "Team" [] true None
      ∈ [BlogOut.Build "Plain" "plain" None "Text" "Team" [] true None]).
Proof.
  split; split.
  - exact news_store_listing.
  - exact (proj1 listing_defaults news_store news_store 0 0 _ news_store_listing).
  - exact plain_listing.
  - exact (proj2 listing_defaults Store.empty _ "Plain" "plain" "Text" "Team"
             None None 0 0 _ plain_listing).
Defined.

(** ** Contact *)

(** C7. On every store and for every validated contact request, the
    handler returns [{ok: true, message: <acknowledgment>, id}] with a
    non-empty [id]; the contact collection gains exactly the one document
    built from the request, stored under [id], and the other collections
    are left as they are. *)
Theorem contact_inserts_one (s : Store.t) (payload : ContactRequest.t) :
  exists id s',
    contact payload s
    = (Return (ContactResponse.Build true
                 "Thanks for reaching out! We'll get back to you soon." id), s')
    /\ id <> ""
    /\ Store.collection "contactmessage" s'
       = (Store.collection "contactmessage" s
          ++ [<["_id" := VStr id]>
                (ContactMessage.model_dump
                   (ContactMessage.Build
                      (ContactRequest.name payload) (ContactRequest.email payload)
                      (ContactRequest.subject payload)
                      (ContactRequest.message payload)))])%list
    /\ forall c, c <> "contactmessage" ->
         Store.collection c s' = Store.collection c s.
Proof.
  exists (Store.object_id (Store.next_id s)).
  eexists. split; [reflexivity|].
  split; [apply object_id_nonempty|].
  split.
  - apply collection_insert_eq.
  - intros c Hc. by apply collection_insert_ne.
Qed.

(** ** Validation *)

Section Rejection.
Context {S : Type} `{!Persistence S}.
Variable validate_email : string -> option string.

(** C8. Whatever the adapter and the store: a body that fails validation
    makes the route raise the validation error with the faults found, which
    are at least one, and leaves the store as it was, for the contact,
    register and login routes alike; a contact body without [message]
    fails validation with a missing-field fault, and one whose [email] the
    email check refuses fails with a value fault on [email]. *)
Theorem invalid_body_rejected (s : S) (body : document) :
  (forall errors,
     ContactRequest_validate validate_email body = inl errors ->
     post_api_contact validate_email body s
     = (Raise (RequestValidationError errors), s) /\ errors <> [])
  /\ (forall errors,
        RegisterRequest_validate validate_email body = inl errors ->
        post_api_auth_register validate_email body s
        = (Raise (RequestValidationError errors), s) /\ errors <> [])
  /\ (forall errors,
        LoginRequest_validate validate_email body = inl errors ->
        post_api_auth_login validate_email body s
        = (Raise (RequestValidationError errors), s) /\ errors <> [])
  /\ (body !! "message" = None ->
      exists errors,
        ContactRequest_validate validate_email body = inl errors
        /\ Missing "message" ∈ errors)
  /\ (forall e,
        body !! "email" = Some (VStr e) -> validate_email e = None ->
        exists errors,
          ContactRequest_validate validate_email body = inl errors
          /\ ValueError "email" ∈ errors).
Proof.
  split; [|split; [|split; [|split]]].
  - intros errors Hv. split.
    + unfold post_api_contact, post. by rewrite Hv.
    + revert Hv. unfold ContactRequest_validate.
      destruct (required_str body "name"), (required_email _ body "email"),
        (optional_str body "subject"), (required_str body "message");
        intros [= <-]; discriminate.
  - intros errors Hv. split.
    + unfold post_api_auth_register, post. by rewrite Hv.
    + revert Hv. unfold RegisterRequest_validate.
      destruct (required_str body "name"), (required_email _ body "email"),
        (required_str body "password"); intros [= <-]; discriminate.
  - intros errors Hv. split.
    + unfold post_api_auth_login, post. by rewrite Hv.
    + revert Hv. unfold LoginRequest_validate.
      destruct (required_email _ body "email"), (required_str body "password");
        intros [= <-]; discriminate.
  - intros Hm. unfold ContactRequest_validate.
    assert (Hr : required_str body "message" = inl (Missing "message")).
    { unfold required_str. by rewrite Hm. }
    rewrite Hr.
    destruct (required_str body "name"), (required_email _ body "email"),
      (optional_str body "subject"); eexists; (split; [reflexivity|]);
      cbn [fault app]; repeat constructor.
  - intros e He Hbad. unfold ContactRequest_validate.
    assert (Hr : required_email validate_email body "email" = inl (ValueError "email")).
    { unfold required_email, required_str. by rewrite He, Hbad. }
    rewrite Hr.
    destruct (required_str body "name"), (optional_str body "subject"),
      (required_str body "message"); eexists; (split; [reflexivity|]);
      cbn [fault app]; repeat constructor.
Qed.

End Rejection.

Lemma invalid_body_rejected_witness :
  (ContactRequest_validate sample_validate_email body_without_message
   = inl [Missing "message"]
   /\ post_api_contact sample_validate_email body_without_message Store.empty
      = (Raise (RequestValidationError [Missing "message"]), Store.empty))
  /\ (RegisterRequest_validate sample_validate_email body_without_message
      = inl [Missing "password"]
      /\ post_api_auth_register sample_validate_email body_without_message Store.empty
         = (Raise (RequestValidationError [Missing "password"]), Store.empty))
  /\ (LoginRequest_validate sample_validate_email body_without_message
      = inl [Missing "password"]
      /\ post_api_auth_login sample_validate_email body_without_message Store.empty
         = (Raise (RequestValidationError [Missing "password"]), Store.empty))
  /\ (body_without_message !! "message" = None
      /\ exists errors,
           ContactRequest_validate sample_validate_email body_without_message
           = inl errors
           /\ Missing "message" ∈ errors)
  /\ (body_bad_email !! "email" = Some (VStr "ada.x.com")
      /\ sample_validate_email "ada.x.com" = None
      /\ exists errors,
           ContactRequest_validate sample_validate_email body_bad_email = inl errors
           /\ ValueError "email" ∈ errors).
Proof.
  pose proof (invalid_body_rejected sample_validate_email Store.empty
                body_without_message) as (Hc & Hr & Hl & Hm & _).
  pose proof (invalid_body_rejected sample_validate_email Store.empty
                body_bad_email) as (_ & _ & _ & _ & He).
  split; [|split; [|split; [|split]]].
  - split; [reflexivity|]. exact (proj1 (Hc _ eq_refl)).
  - split; [reflexivity|]. exact (proj1 (Hr _ eq_refl)).
  - split; [reflexivity|]. exact (proj1 (Hl _ eq_refl)).
  - split; [reflexivity|]. exact (Hm eq_refl).
  - split; [reflexivity|]. split; [reflexivity|]. exact (He _ eq_refl eq_refl).
Defined.

(** ** Health check *)

(** C9. For every state of the [db] handle and of the environment, the
    health check returns a diagnostic object and raises nothing: the status
    reads "Available but not initialized" without a handle, "Connected &
    Working" when the collection names could be listed, "Connected but
    Error" with the start of the message when listing them raised, and
    "Error" with the start of the message when probing the handle raised;
    the initial "Not Available" text is replaced on every path.  At most
    ten collection names are reported.  The check is a function of the
    handle and the environment alone: it is handed no store to change. *)
Theorem test_database_never_fails (db : option Database.t)
    (DATABASE_URL : option string) :
  exists response,
    test_database db DATABASE_URL = Return response
    /\ (length (Diagnostics.collections response) <= 10)%nat
    /\ Diagnostics.backend response = "✅ Running"
    /\ Diagnostics.database response
       = match db with
         | None => "⚠️ Available but not initialized"
         | Some d =>
             match Database.name d with
             | Database.AttributeRaises msg =>
                 "❌ Error: " +:+ PyStr.slice_to 50 msg
             | _ =>
                 match Database.list_collection_names d with
                 | inr _ => "✅ Connected & Working"
                 | inl msg => "⚠️ Connected but Error: " +:+ PyStr.slice_to 50 msg
                 end
             end
         end
    /\ Diagnostics.collections response
       = match db with
         | None => []
         | Some d =>
             match Database.name d, Database.list_collection_names d with
             | Database.AttributeRaises _, _ => []
             | _, inr names => take 10 names
             | _, inl _ => []
             end
         end.
Proof.
  destruct db as [[name [msg|names]]|]; [destruct name.. |];
    (eexists; split; [reflexivity|]);
    cbn [Diagnostics.collections Diagnostics.backend Diagnostics.database
         Database.name Database.list_collection_names];
    repeat split; try (cbn; lia);
    rewrite length_take; lia.
Qed.

(** * Further properties *)

(** ** Password hashing *)

Lemma compress_length (h block : list Z) : length (Sha256.compress h block) = 8%nat.
Proof. reflexivity. Qed.

Lemma digest_words_length (msg : list Z) : length (Sha256.digest_words msg) = 8%nat.
Proof.
  unfold Sha256.digest_words.
  generalize (Sha256.blocks (length (Sha256.be_words (Sha256.pad msg)))
                            (Sha256.be_words (Sha256.pad msg))).
  assert (H : length Sha256.H0 = 8%nat) by reflexivity.
  revert H. generalize Sha256.H0.
  intros h Hh bl. revert h Hh.
  induction bl as [|b bl IH]; intros h Hh; [done|].
  cbn [fold_left]. apply IH, compress_length.
Qed.

Lemma hex_digit_is_hex (x : Z) : is_hex (PyStr.hex_digit (Z.land x 15)) = true.
Proof.
  change 15 with (Z.ones 4). rewrite Z.land_ones by lia.
  assert (H : 0 <= x mod 2 ^ 4 < 16) by (apply Z.mod_pos_bound; lia).
  remember (x mod 2 ^ 4) as d eqn:Ed. clear Ed.
  assert (Hd : d = 0 \/ d = 1 \/ d = 2 \/ d = 3 \/ d = 4 \/ d = 5 \/ d = 6 \/ d = 7
               \/ d = 8 \/ d = 9 \/ d = 10 \/ d = 11 \/ d = 12 \/ d = 13 \/ d = 14
               \/ d = 15) by lia.
  repeat (destruct Hd as [-> | Hd]; [reflexivity|]). by subst.
Qed.

Lemma Forall_chars_append (P : ascii -> Prop) (s1 s2 : string) :
  Forall P (list_ascii_of_string s1) -> Forall P (list_ascii_of_string s2) ->
  Forall P (list_ascii_of_string (s1 +:+ s2)).
Proof.
  intros H1 H2. induction s1 as [|a s1 IH]; [done|].
  cbn in *. inversion H1; subst. constructor; auto.
Qed.

Lemma hex_of_is_hex (n : nat) (x : Z) :
  Forall (fun a => is_hex a = true) (list_ascii_of_string (PyStr.hex_of n x)).
Proof.
  revert x. induction n as [|n IH]; intros x; cbn [PyStr.hex_of]; [constructor|].
  apply Forall_chars_append; [apply IH|].
  cbn. constructor; [apply hex_digit_is_hex | constructor].
Qed.

(** X1. [hash_password] returns exactly when the password holds no
    surrogate, and what it returns is a string of exactly 64 lower-case
    hexadecimal digits; on a password that holds a surrogate it raises
    [UnicodeEncodeError] with the index of the first one. *)
Theorem hash_password_hex64 (password : string) :
  match hash_password password with
  | Return h =>
      PyStr.first_surrogate 0 password = None
      /\ String.length h = 64%nat
      /\ Forall (fun a => is_hex a = true) (list_ascii_of_string h)
  | Raise e =>
      exists i, PyStr.first_surrogate 0 password = Some i
                /\ e = UnicodeEncodeError i
  end.
Proof.
  unfold hash_password, encode_utf8.
  destruct (PyStr.first_surrogate 0 password) as [i|]; [by exists i|].
  split; [done|]. unfold Sha256.hexdigest.
  pose proof (digest_words_length (PyStr.utf8_bytes password)) as Hlen.
  revert Hlen. generalize (Sha256.digest_words (PyStr.utf8_bytes password)).
  intros ws Hlen.
  assert (Hgen : String.length
                   (fold_right (fun w acc => PyStr.hex_of 8 w +:+ acc) EmptyString ws)
                 = (8 * length ws)%nat
                 /\ Forall (fun a => is_hex a = true)
                      (list_ascii_of_string
                         (fold_right (fun w acc => PyStr.hex_of 8 w +:+ acc)
                                     EmptyString ws))).
  { clear Hlen. induction ws as [|w ws [IH1 IH2]]; [split; [done | constructor]|].
    cbn [fold_right]. split.
    - rewrite length_append, hex_of_length, IH1. cbn [length]. lia.
    - apply Forall_chars_append; [apply hex_of_is_hex | exact IH2]. }
  destruct Hgen as [H1 H2]. split; [|exact H2]. rewrite H1, Hlen. reflexivity.
Qed.

(** ** Slicing and the health check *)

Lemma slice_to_len (n : nat) (s : string) : (len (PyStr.slice_to n s) <= n)%nat.
Proof.
  revert n. induction s as [|a s IH]; intros n; cbn [PyStr.slice_to len]; [lia|].
  destruct (PyStr.is_continuation a) eqn:Ha.
  - cbn [len]. rewrite Ha. apply IH.
  - destruct n as [|n]; cbn [len]; [lia|]. rewrite Ha. specialize (IH n). lia.
Qed.

Lemma slice_to_prefix (n : nat) (s : string) :
  exists rest, s = PyStr.slice_to n s +:+ rest.
Proof.
  revert n. induction s as [|a s IH]; intros n; cbn [PyStr.slice_to].
  - by exists "".
  - destruct (PyStr.is_continuation a).
    + destruct (IH n) as [rest Hrest]. exists rest.
      change (String a s = String a (PyStr.slice_to n s +:+ rest)). by f_equal.
    + destruct n as [|n].
      * by exists (String a s).
      * destruct (IH n) as [rest Hrest]. exists rest.
      change (String a s = String a (PyStr.slice_to n s +:+ rest)). by f_equal.
Qed.

Lemma slice_to_all (n : nat) (s : string) :
  (len s <= n)%nat -> PyStr.slice_to n s = s.
Proof.
  revert n. induction s as [|a s IH]; intros n; cbn [PyStr.slice_to len]; [done|].
  destruct (PyStr.is_continuation a).
  - intros H. by rewrite IH.
  - destruct n as [|n]; [lia|]. intros H. rewrite IH; [done | lia].
Qed.

(** X2. When listing the collection names raises, the status carries the
    start of the message: a prefix of it of at most 50 characters, the
    whole message when it has no more than 50. *)
Theorem test_database_error_truncated (d : Database.t)
    (DATABASE_URL : option string) (msg : string) :
  Database.list_collection_names d = inl msg ->
  (forall m, Database.name d <> Database.AttributeRaises m) ->
  exists response t,
    test_database (Some d) DATABASE_URL = Return response
    /\ Diagnostics.database response = "⚠️ Connected but Error: " +:+ t
    /\ (len t <= 50)%nat
    /\ (exists rest, msg = t +:+ rest)
    /\ ((len msg <= 50)%nat -> t = msg).
Proof.
  intros Hlist Hname. destruct d as [name names]. cbn in Hlist, Hname. subst names.
  destruct name as [|v|m]; [| |by destruct (Hname m)];
    (eexists _, (PyStr.slice_to 50 msg); split; [reflexivity|];
     split; [reflexivity|]; split; [apply slice_to_len|];
     split; [apply slice_to_prefix | apply slice_to_all]).
Qed.

Lemma test_database_error_truncated_witness :
  exists response t,
    test_database
      (Some (Database.Build Database.NoAttribute
               (inl "connection refused by the server after three attempts, giving up")))
      None = Return response
    /\ Diagnostics.database response = "⚠️ Connected but Error: " +:+ t
    /\ (len t <= 50)%nat
    /\ (exists rest,
          "connection refused by the server after three attempts, giving up"
          = t +:+ rest)
    /\ ((len "connection refused by the server after three attempts, giving up"
         <= 50)%nat ->
        t = "connection refused by the server after three attempts, giving up").
Proof.
  apply (test_database_error_truncated
           (Database.Build Database.NoAttribute
              (inl "connection refused by the server after three attempts, giving up"))
           None _ eq_refl).
  intros m. discriminate.
Defined.

(** X3. The status the health check starts from, "Not Available", is
    never the one it reports. *)
Theorem test_database_never_not_available (db : option Database.t)
    (DATABASE_URL : option string) (response : Diagnostics.t) :
  test_database db DATABASE_URL = Return response ->
  Diagnostics.database response <> "❌ Not Available".
Proof.
  destruct db as [[name [msg|names]]|]; [destruct name.. |];
    intros [= <-]; cbn; discriminate.
Qed.

Lemma test_database_never_not_available_witness :
  test_database None None
  = Return (Diagnostics.Build "✅ Running" "⚠️ Available but not initialized"
              None None "Not Connected" [])
  /\ "⚠️ Available but not initialized" <> "❌ Not Available".
Proof.
  split; [reflexivity|].
  exact (test_database_never_not_available None None _ eq_refl).
Defined.

(** X4. What the health check reports beside the status: the environment
    variable is looked at only when there is a handle, and an empty value
    counts as not set; the name is the handle's [name], a fixed text when it
    has none, and absent when looking it up raised, in which case the
    connection is reported as not connected. *)
Theorem test_database_fields (db : option Database.t)
    (DATABASE_URL : option string) (response : Diagnostics.t) :
  test_database db DATABASE_URL = Return response ->
  Diagnostics.database_url response
  = match db with
    | None => None
    | Some _ => Some (match DATABASE_URL with
                      | Some (String _ _) => "✅ Set"
                      | _ => "❌ Not Set"
                      end)
    end
  /\ Diagnostics.database_name response
     = match db with
       | None => None
       | Some d => match Database.name d with
                   | Database.Attribute v => Some v
                   | Database.NoAttribute => Some "✅ Connected"
                   | Database.AttributeRaises _ => None
                   end
       end
  /\ Diagnostics.connection_status response
     = match db with
       | None => "Not Connected"
       | Some d => match Database.name d with
                   | Database.AttributeRaises _ => "Not Connected"
                   | _ => "Connected"
                   end
       end.
Proof.
  destruct db as [[name [msg|names]]|]; [destruct name.. |];
    intros [= <-]; destruct DATABASE_URL as [[|a u]|]; repeat split.
Qed.

Lemma test_database_fields_witness :
  test_database (Some (Database.Build (Database.AttributeRaises "boom") (inr [])))
                (Some "")
  = Return (Diagnostics.Build "✅ Running" "❌ Error: boom" (Some "❌ Not Set")
              None "Not Connected" [])
  /\ Diagnostics.database_url
       (Diagnostics.Build "✅ Running" "❌ Error: boom" (Some "❌ Not Set")
          None "Not Connected" [])
     = Some "❌ Not Set".
Proof.
  split; [reflexivity|].
  exact (proj1 (test_database_fields
                  (Some (Database.Build (Database.AttributeRaises "boom") (inr [])))
                  (Some "") _ eq_refl)).
Defined.

(** ** Registration and login on the store *)

Lemma filter_cons_split {A} (p : A -> bool) (l : list A) (x : A) (hits : list A) :
  List.filter p l = x :: hits ->
  exists l1 l2, l = (l1 ++ x :: l2)%list
                /\ (forall y, y ∈ l1 -> p y = false) /\ p x = true.
Proof.
  induction l as [|a l IH]; [discriminate|].
  cbn [List.filter]. destruct (p a) eqn:Ha.
  - intros [= -> _]. exists [], l. split; [done|]. split; [|done].
    intros y Hy. inversion Hy.
  - intros H. destruct (IH H) as (l1 & l2 & -> & Hl1 & Hx).
    exists (a :: l1), l2. split; [done|]. split; [|done].
    intros y Hy. apply elem_of_cons in Hy as [->|Hy]; auto.
Qed.

Lemma filter_first_match {A} (p : A -> bool) (l1 l2 : list A) (x : A) :
  (forall y, y ∈ l1 -> p y = false) -> p x = true ->
  List.filter p (l1 ++ x :: l2) = x :: List.filter p l2.
Proof.
  intros Hl1 Hx. rewrite List.filter_app.
  replace (List.filter p l1) with (@nil A)
    by (symmetry; by apply filter_nil_iff).
  cbn [app List.filter]. by rewrite Hx.
Qed.

(** Either no user document carries the email, or a first one does. *)
Lemma user_lookup_cases (s : Store.t) (E : string) :
  (forall d, d ∈ Store.collection "user" s -> d !! "email" <> Some (VStr E))
  \/ exists l1 d l2,
       Store.collection "user" s = (l1 ++ d :: l2)%list
       /\ (forall d', d' ∈ l1 -> d' !! "email" <> Some (VStr E))
       /\ d !! "email" = Some (VStr E).
Proof.
  destruct (List.filter
              (fun d => bool_decide (Store.matches {["email" := VStr E]} d))
              (Store.collection "user" s)) as [|d hits] eqn:Hf.
  - left. intros d Hd. pose proof (proj1 (filter_nil_iff _ _) Hf d Hd) as Hm.
    apply bool_decide_eq_false in Hm. by rewrite matches_field in Hm.
  - right. apply filter_cons_split in Hf as (l1 & l2 & Hl & Hl1 & Hd).
    exists l1, d, l2. split; [done|]. split.
    + intros d' Hd'. specialize (Hl1 d' Hd').
      apply bool_decide_eq_false in Hl1. by rewrite matches_field in Hl1.
    + apply bool_decide_eq_true in Hd. by rewrite matches_field in Hd.
Qed.

(** The lookup by email with [limit=1] returns the first user document
    that carries the email. *)
Lemma find_first_user (s : Store.t) (E : string) (l1 l2 : list document)
    (d : document) :
  Store.collection "user" s = (l1 ++ d :: l2)%list ->
  (forall d', d' ∈ l1 -> d' !! "email" <> Some (VStr E)) ->
  d !! "email" = Some (VStr E) ->
  Store.find "user" {["email" := VStr E]} (Some 1%nat) s = (Return [d], s).
Proof.
  intros Hcoll Hl1 Hd. unfold Store.find. rewrite Hcoll, filter_first_match.
  - reflexivity.
  - intros y Hy. apply bool_decide_eq_false. rewrite matches_field. by apply Hl1.
  - apply bool_decide_eq_true. by rewrite matches_field.
Qed.

Lemma hash_password_Raise (P : string) (e : exn) :
  hash_password P = Raise e ->
  exists i, e = UnicodeEncodeError i /\ PyStr.first_surrogate 0 P = Some i.
Proof.
  unfold hash_password, encode_utf8.
  destruct (PyStr.first_surrogate 0 P) as [i|]; [|discriminate].
  intros [= <-]. by exists i.
Qed.

Lemma hash_lone_surrogate : hash_password lone_surrogate = Raise (UnicodeEncodeError 0).
Proof. reflexivity. Qed.

(** X5. A registration that returns has added exactly one document to the
    user collection, holding the name, the email, the hash of the password
    (and no [password] field), no avatar and the active flag, under the
    identifier returned; the other collections are as they were.  A
    registration that raises has left the store as it was, and has raised
    either the 400 error, some user document carrying the email, or
    [UnicodeEncodeError], the email being new and the password holding a
    surrogate. *)
Theorem register_effect (s s' : Store.t) (N E P : string) :
  (forall r, register (RegisterRequest.Build N E P) s = (Return r, s') ->
     RegisterResponse.ok r = true
     /\ (exists d h,
           hash_password P = Return h
           /\ Store.collection "user" s' = (Store.collection "user" s ++ [d])%list
           /\ d !! "_id" = Some (VStr (RegisterResponse.user_id r))
           /\ d !! "name" = Some (VStr N)
           /\ d !! "email" = Some (VStr E)
           /\ d !! "password_hash" = Some (VStr h)
           /\ d !! "password" = None
           /\ d !! "avatar_url" = Some VNone
           /\ d !! "is_active" = Some (VBool true))
     /\ forall c, c <> "user" -> Store.collection c s' = Store.collection c s)
  /\ (forall e, register (RegisterRequest.Build N E P) s = (Raise e, s') ->
        s' = s
        /\ (e = HTTPException 400 "Email already registered"
            /\ (exists d, d ∈ Store.collection "user" s
                          /\ d !! "email" = Some (VStr E))
            \/ (exists i, e = UnicodeEncodeError i
                          /\ PyStr.first_surrogate 0 P = Some i)
               /\ forall d, d ∈ Store.collection "user" s ->
                            d !! "email" <> Some (VStr E))).
Proof.
  destruct (user_lookup_cases s E) as [Hnew | (l1 & d & l2 & Hcoll & _ & Hd)].
  - destruct (hash_password P) as [h|e0] eqn:Hh.
    + rewrite (register_new s N E P h Hnew Hh). split; [|discriminate].
      intros r [= <- <-]. split; [reflexivity|]. split.
      * eexists _, h. split; [done|]. split; [apply collection_insert_eq|].
        by repeat split.
      * intros c Hc. by apply collection_insert_ne.
    + rewrite (register_unencodable s N E P e0 Hnew Hh). split; [discriminate|].
      intros e [= <- <-]. split; [done|]. right. split; [|done].
      by apply hash_password_Raise.
  - assert (Htaken : exists d, d ∈ Store.collection "user" s
                               /\ d !! "email" = Some (VStr E)).
    { exists d. split; [|done]. rewrite Hcoll. apply elem_of_app. right. constructor. }
    rewrite (register_taken s N E P Htaken).
    split; [discriminate|]. intros e [= <- <-]. split; [done|]. by left.
Qed.

Lemma register_effect_witness :
  register ada Store.empty
  = (Return (RegisterResponse.Build true "000000000000000000000000"), ada_store)
  /\ register ada ada_store
     = (Raise (HTTPException 400 "Email already registered"), ada_store)
  /\ register (RegisterRequest.Build "Ada" "ada@x.com" lone_surrogate) Store.empty
     = (Raise (UnicodeEncodeError 0), Store.empty)
  /\ (exists d h,
        hash_password "secret" = Return h
        /\ Store.collection "user" ada_store
           = (Store.collection "user" Store.empty ++ [d])%list
        /\ d !! "password_hash" = Some (VStr h)
        /\ d !! "password" = None)
  /\ ada_store = ada_store
  /\ Store.empty = Store.empty.
Proof.
  assert (H2 : register ada ada_store
               = (Raise (HTTPException 400 "Email already registered"), ada_store)).
  { apply register_taken. exists ada_doc. split; [|reflexivity].
    rewrite ada_store_users. constructor. }
  assert (H3 : register (RegisterRequest.Build "Ada" "ada@x.com" lone_surrogate)
                        Store.empty
               = (Raise (UnicodeEncodeError 0), Store.empty)).
  { apply register_unencodable; [|exact hash_lone_surrogate].
    intros d Hd. inversion Hd. }
  split; [exact ada_registers|]. split; [exact H2|]. split; [exact H3|]. split.
  - destruct (proj1 (register_effect Store.empty ada_store "Ada" "ada@x.com" "secret")
                _ ada_registers)
      as (_ & (d & h & Hh & Hd & _ & _ & _ & Hph & Hp & _) & _).
    exists d, h. split; [exact Hh|]. split; [exact Hd|]. split; [exact Hph | exact Hp].
  - split.
    + exact (proj1 (proj2 (register_effect ada_store ada_store
                             "Ada" "ada@x.com" "secret") _ H2)).
    + exact (proj1 (proj2 (register_effect Store.empty Store.empty
                             "Ada" "ada@x.com" lone_surrogate) _ H3)).
Defined.

(** X6. Registration keeps emails unique: on a store whose user documents
    carry pairwise different emails, the store a registration leaves,
    whether it returned or raised, has the same property. *)
Theorem register_keeps_emails_unique (s : Store.t) (payload : RegisterRequest.t) :
  NoDup (emails s) -> NoDup (emails (snd (register payload s))).
Proof.
  intros Hnodup. destruct payload as [N E P].
  destruct (user_lookup_cases s E) as [Hnew | (l1 & d & l2 & Hcoll & _ & Hd)].
  - destruct (hash_password P) as [h|e0] eqn:Hh.
    + rewrite (register_new s N E P h Hnew Hh). cbn [snd]. unfold emails.
      rewrite collection_insert_eq, omap_app. apply NoDup_app.
      split; [exact Hnodup|]. split.
      * intros v Hv Hv'. apply list_elem_of_omap in Hv as (d & Hd & Hdv).
        cbn in Hv'. apply list_elem_of_singleton in Hv' as ->.
        by apply (Hnew d Hd).
      * cbn. apply NoDup_singleton.
    + by rewrite (register_unencodable s N E P e0 Hnew Hh).
  - rewrite (register_taken s N E P); [done|].
    exists d. split; [|done]. rewrite Hcoll. apply elem_of_app. right. constructor.
Qed.

Lemma hash_pw : hash_password "pw" = Return (hex_sha256 "pw").
Proof. by apply hash_password_encodable. Qed.

Lemma register_keeps_emails_unique_witness :
  NoDup (emails ada_store)
  /\ NoDup (emails (snd (register (RegisterRequest.Build "Bob" "bob@x.com" "pw")
                                  ada_store))).
Proof.
  assert (H : NoDup (emails ada_store)).
  { unfold emails. rewrite ada_store_users. cbn. apply NoDup_singleton. }
  split; [exact H|].
  exact (register_keeps_emails_unique ada_store _ H).
Defined.

(** The outcome of a login is decided by the first user document that
    carries the email. *)
Lemma login_first_user (s : Store.t) (E P h : string) (l1 l2 : list document)
    (d : document) :
  Store.collection "user" s = (l1 ++ d :: l2)%list ->
  (forall d', d' ∈ l1 -> d' !! "email" <> Some (VStr E)) ->
  d !! "email" = Some (VStr E) ->
  hash_password P = Return h ->
  login (LoginRequest.Build E P) s
  = if bool_decide (dict_get d "password_hash" VNone <> VStr h)
    then (Raise (HTTPException 401 "Invalid credentials"), s)
    else (Return (LoginResponse.Build true (dict_get d "name" VNone) (VStr E)), s).
Proof.
  intros Hcoll Hl1 Hd Hh. unfold login, bind, lift.
  cbn [get_documents store_persistence LoginRequest.email LoginRequest.password].
  rewrite (find_first_user s E l1 l2 d Hcoll Hl1 Hd), Hh.
  destruct (bool_decide _); [reflexivity|].
  unfold ret, dict_get at 2. by rewrite Hd.
Qed.

Lemma login_first_user_unencodable (s : Store.t) (E P : string) (e : exn)
    (l1 l2 : list document) (d : document) :
  Store.collection "user" s = (l1 ++ d :: l2)%list ->
  (forall d', d' ∈ l1 -> d' !! "email" <> Some (VStr E)) ->
  d !! "email" = Some (VStr E) ->
  hash_password P = Raise e ->
  login (LoginRequest.Build E P) s = (Raise e, s).
Proof.
  intros Hcoll Hl1 Hd Hh. unfold login, bind, lift.
  cbn [get_documents store_persistence LoginRequest.email LoginRequest.password].
  by rewrite (find_first_user s E l1 l2 d Hcoll Hl1 Hd), Hh.
Qed.

Lemma login_unknown (s : Store.t) (E P : string) :
  (forall d, d ∈ Store.collection "user" s -> d !! "email" <> Some (VStr E)) ->
  login (LoginRequest.Build E P) s
  = (Raise (HTTPException 401 "Invalid credentials"), s).
Proof.
  intros Hnew. apply find_one_nil in Hnew. unfold login, bind.
  cbn [get_documents store_persistence LoginRequest.email].
  by rewrite find_pair, Hnew.
Qed.

(** X7. A login never changes the store.  It returns only when a user
    document carries the email together with the hash of the supplied
    password, and then answers with that document's name.  When it raises,
    it raises the 401 error, or else [UnicodeEncodeError]: that happens
    only for a password that holds a surrogate and an email that some user
    document carries. *)
Theorem login_sound (s s' : Store.t) (E P : string) :
  (forall r, login (LoginRequest.Build E P) s = (Return r, s') ->
     s' = s
     /\ exists d h, d ∈ Store.collection "user" s
                    /\ d !! "email" = Some (VStr E)
                    /\ hash_password P = Return h
                    /\ d !! "password_hash" = Some (VStr h)
                    /\ r = LoginResponse.Build true (dict_get d "name" VNone) (VStr E))
  /\ (forall e, login (LoginRequest.Build E P) s = (Raise e, s') ->
        s' = s
        /\ (e = HTTPException 401 "Invalid credentials"
            \/ (exists i, e = UnicodeEncodeError i
                          /\ PyStr.first_surrogate 0 P = Some i)
               /\ exists d, d ∈ Store.collection "user" s
                            /\ d !! "email" = Some (VStr E))).
Proof.
  destruct (user_lookup_cases s E) as [Hnew | (l1 & d & l2 & Hcoll & Hl1 & Hd)].
  - rewrite (login_unknown s E P Hnew). split; [discriminate|].
    intros e [= <- <-]. split; [done | by left].
  - assert (Hin : d ∈ Store.collection "user" s).
    { rewrite Hcoll. apply elem_of_app. right. constructor. }
    destruct (hash_password P) as [h|e0] eqn:Hhash.
    + rewrite (login_first_user s E P h l1 l2 d Hcoll Hl1 Hd Hhash).
      destruct (bool_decide _) eqn:Hh.
      * split; [discriminate|]. intros e [= <- <-]. split; [done | by left].
      * split; [|discriminate]. intros r [= <- <-]. split; [done|].
        exists d, h. split; [done|]. split; [done|]. split; [done|]. split; [|done].
        apply bool_decide_eq_false in Hh. apply dec_stable in Hh.
        unfold dict_get in Hh. destruct (d !! "password_hash"); cbn in Hh; congruence.
    + rewrite (login_first_user_unencodable s E P e0 l1 l2 d Hcoll Hl1 Hd Hhash).
      split; [discriminate|]. intros e [= <- <-]. split; [done|]. right.
      split; [by apply hash_password_Raise | by exists d].
Qed.

Lemma ada_doc_hash : dict_get ada_doc "password_hash" VNone = VStr (hex_sha256 "secret").
Proof. reflexivity. Qed.

Lemma ada_login_ok :
  login ada_login ada_store
  = (Return (LoginResponse.Build true (VStr "Ada") (VStr "ada@x.com")), ada_store).
Proof.
  unfold ada_login.
  rewrite (login_first_user ada_store "ada@x.com" "secret" (hex_sha256 "secret")
             [] [] ada_doc ada_store_users);
    [| intros d' Hd'; inversion Hd' | reflexivity | exact hash_secret].
  rewrite ada_doc_hash.
  rewrite bool_decide_eq_false_2; [reflexivity|]. intros Hne. by apply Hne.
Qed.

Lemma ada_guess_fails :
  login (LoginRequest.Build "ada@x.com" "guess") ada_store
  = (Raise (HTTPException 401 "Invalid credentials"), ada_store).
Proof.
  rewrite (login_first_user ada_store "ada@x.com" "guess" (hex_sha256 "guess")
             [] [] ada_doc ada_store_users);
    [| intros d' Hd'; inversion Hd' | reflexivity | exact hash_guess].
  rewrite ada_doc_hash.
  rewrite bool_decide_eq_true_2; [reflexivity|].
  intros Heq. apply (f_equal as_str) in Heq. cbn [as_str] in Heq.
  apply guess_differs. congruence.
Qed.

Lemma ada_surrogate_raises :
  login (LoginRequest.Build "ada@x.com" lone_surrogate) ada_store
  = (Raise (UnicodeEncodeError 0), ada_store).
Proof.
  apply (login_first_user_unencodable ada_store "ada@x.com" lone_surrogate _
           [] [] ada_doc ada_store_users);
    [intros d' Hd'; inversion Hd' | reflexivity | exact hash_lone_surrogate].
Qed.

Lemma login_sound_witness :
  login ada_login ada_store
  = (Return (LoginResponse.Build true (VStr "Ada") (VStr "ada@x.com")), ada_store)
  /\ login (LoginRequest.Build "ada@x.com" "guess") ada_store
     = (Raise (HTTPException 401 "Invalid credentials"), ada_store)
  /\ login (LoginRequest.Build "ada@x.com" lone_surrogate) ada_store
     = (Raise (UnicodeEncodeError 0), ada_store)
  /\ (exists d h, d ∈ Store.collection "user" ada_store
                  /\ hash_password "secret" = Return h
                  /\ d !! "password_hash" = Some (VStr h))
  /\ ada_store = ada_store
  /\ ada_store = ada_store.
Proof.
  split; [exact ada_login_ok|]. split; [exact ada_guess_fails|].
  split; [exact ada_surrogate_raises|]. split.
  - destruct (proj1 (login_sound ada_store ada_store "ada@x.com" "secret")
                _ ada_login_ok) as (_ & d & h & Hd & _ & Hh & Hph & _).
    exists d, h. split; [exact Hd|]. split; [exact Hh | exact Hph].
  - split.
    + exact (proj1 (proj2 (login_sound ada_store ada_store "ada@x.com" "guess")
                      _ ada_guess_fails)).
    + exact (proj1 (proj2 (login_sound ada_store ada_store "ada@x.com" lone_surrogate)
                      _ ada_surrogate_raises)).
Defined.

(** X8. Among user documents that carry the same email only the first
    counts: when its stored hash differs from the hash of the supplied
    password the login raises the 401 error, and when it agrees the login
    answers with that document's name, whatever the later documents
    hold. *)
Theorem login_consults_first_match (s : Store.t) (E P h : string)
    (l1 l2 : list document) (d : document) :
  Store.collection "user" s = (l1 ++ d :: l2)%list ->
  (forall d', d' ∈ l1 -> d' !! "email" <> Some (VStr E)) ->
  d !! "email" = Some (VStr E) ->
  hash_password P = Return h ->
  (dict_get d "password_hash" VNone <> VStr h ->
   login (LoginRequest.Build E P) s
   = (Raise (HTTPException 401 "Invalid credentials"), s))
  /\ (dict_get d "password_hash" VNone = VStr h ->
      login (LoginRequest.Build E P) s
      = (Return (LoginResponse.Build true (dict_get d "name" VNone) (VStr E)), s)).
Proof.
  intros Hcoll Hl1 Hd Hhash.
  rewrite (login_first_user s E P h l1 l2 d Hcoll Hl1 Hd Hhash).
  split; intros Hh.
  - by rewrite bool_decide_eq_true_2.
  - rewrite bool_decide_eq_false_2; [done|]. intros Hne. by apply Hne.
Qed.

Lemma hash_one : hash_password "one" = Return (hex_sha256 "one").
Proof. by apply hash_password_encodable. Qed.

Lemma hash_two : hash_password "two" = Return (hex_sha256 "two").
Proof. by apply hash_password_encodable. Qed.

Lemma two_differs : hex_sha256 "one" <> hex_sha256 "two".
Proof. vm_compute. discriminate. Qed.

Lemma login_consults_first_match_witness :
  Store.collection "user" twin_store = ([] ++ twin_first :: [twin_second])%list
  /\ hash_password "two" = Return (hex_sha256 "two")
  /\ twin_second !! "password_hash" = Some (VStr (hex_sha256 "two"))
  /\ login (LoginRequest.Build "twin@x.com" "two") twin_store
     = (Raise (HTTPException 401 "Invalid credentials"), twin_store)
  /\ login (LoginRequest.Build "twin@x.com" "one") twin_store
     = (Return (LoginResponse.Build true (VStr "First") (VStr "twin@x.com")),
        twin_store).
Proof.
  assert (Hcoll : Store.collection "user" twin_store
                  = ([] ++ twin_first :: [twin_second])%list) by reflexivity.
  assert (Hl1 : forall d', d' ∈ @nil document ->
                           d' !! "email" <> Some (VStr "twin@x.com"))
    by (intros d' Hd'; inversion Hd').
  assert (Hfirst : dict_get twin_first "password_hash" VNone = VStr (hex_sha256 "one"))
    by reflexivity.
  split; [exact Hcoll|]. split; [exact hash_two|]. split; [reflexivity|]. split.
  - apply (proj1 (login_consults_first_match twin_store "twin@x.com" "two"
                    (hex_sha256 "two") [] [twin_second] twin_first
                    Hcoll Hl1 eq_refl hash_two)).
    rewrite Hfirst. intros Heq. apply (f_equal as_str) in Heq. cbn [as_str] in Heq.
    apply two_differs. congruence.
  - apply (proj2 (login_consults_first_match twin_store "twin@x.com" "one"
                    (hex_sha256 "one") [] [twin_second] twin_first
                    Hcoll Hl1 eq_refl hash_one)).
    exact Hfirst.
Defined.

(** A login gives the same answer on two stores whose user collections
    agree up to the first document that carries the email. *)
Lemma login_same_first (s s2 : Store.t) (E P : string)
    (l1 l2 l2' : list document) (d : document) :
  Store.collection "user" s = (l1 ++ d :: l2)%list ->
  Store.collection "user" s2 = (l1 ++ d :: l2')%list ->
  (forall d', d' ∈ l1 -> d' !! "email" <> Some (VStr E)) ->
  d !! "email" = Some (VStr E) ->
  fst (login (LoginRequest.Build E P) s2) = fst (login (LoginRequest.Build E P) s).
Proof.
  intros Hs Hs2 Hl1 Hd. destruct (hash_password P) as [h|e] eqn:Hh.
  - rewrite (login_first_user s E P h l1 l2 d Hs Hl1 Hd Hh).
    rewrite (login_first_user s2 E P h l1 l2' d Hs2 Hl1 Hd Hh).
    by destruct (bool_decide _).
  - rewrite (login_first_user_unencodable s E P e l1 l2 d Hs Hl1 Hd Hh).
    by rewrite (login_first_user_unencodable s2 E P e l1 l2' d Hs2 Hl1 Hd Hh).
Qed.

(** X9. A login that succeeds keeps succeeding, with the same answer,
    after any later registration, contact submission or blog listing. *)
Theorem login_survives_later_requests {conv : Conversions}
    (s : Store.t) (p : LoginRequest.t)
    (r : LoginResponse.t) :
  fst (login p s) = Return r ->
  (forall q, fst (login p (snd (register q s))) = Return r)
  /\ (forall c, fst (login p (snd (contact c s))) = Return r)
  /\ (forall now1 now2, fst (login p (snd (list_blogs now1 now2 s))) = Return r).
Proof.
  destruct p as [E P]. intros Hok.
  destruct (user_lookup_cases s E) as [Hnew | (l1 & d & l2 & Hcoll & Hl1 & Hd)].
  { rewrite (login_unknown s E P Hnew) in Hok. discriminate. }
  rewrite <- Hok. split; [|split].
  - intros [N' E' P'].
    destruct (user_lookup_cases s E') as [Hnew' | (k1 & d' & k2 & Hcoll' & _ & Hd')].
    + destruct (hash_password P') as [h'|e'] eqn:Hh'.
      * rewrite (register_new s N' E' P' h' Hnew' Hh'). cbn [snd].
        eapply (login_same_first s _ E P l1 l2 _ d Hcoll); [|done..].
        rewrite collection_insert_eq, Hcoll, <- app_assoc. reflexivity.
      * by rewrite (register_unencodable s N' E' P' e' Hnew' Hh').
    + rewrite (register_taken s N' E' P'); [done|].
      exists d'. split; [|done]. rewrite Hcoll'. apply elem_of_app. right. constructor.
  - intros c. eapply (login_same_first s _ E P l1 l2 l2 d Hcoll); [|done..].
    unfold contact, bind. cbn [create_document store_persistence].
    change (Store.insert ?c ?d ?s) with
      (Return (Store.object_id (Store.next_id s)), snd (Store.insert c d s)).
    cbn [ret snd]. by rewrite collection_insert_ne.
  - intros now1 now2. eapply (login_same_first s _ E P l1 l2 l2 d Hcoll); [|done..].
    rewrite list_blogs_state. destruct (published_docs s); [|done].
    by rewrite seeded_other.
Qed.

Lemma login_survives_later_requests_witness :
  fst (login ada_login ada_store)
  = Return (LoginResponse.Build true (VStr "Ada") (VStr "ada@x.com"))
  /\ fst (login ada_login
            (snd (register (RegisterRequest.Build "Bob" "bob@x.com" "pw") ada_store)))
     = Return (LoginResponse.Build true (VStr "Ada") (VStr "ada@x.com")).
Proof.
  assert (H : fst (login ada_login ada_store)
              = Return (LoginResponse.Build true (VStr "Ada") (VStr "ada@x.com"))).
  { by rewrite ada_login_ok. }
  split; [exact H|].
  exact (proj1 (login_survives_later_requests (conv := sample_conversions)
                  ada_store ada_login _ H) _).
Defined.

(** What a registration that returned has done. *)
Lemma register_Return_inv (s s1 : Store.t) (N E P : string) (r : RegisterResponse.t) :
  register (RegisterRequest.Build N E P) s = (Return r, s1) ->
  exists h,
    hash_password P = Return h
    /\ (forall d, d ∈ Store.collection "user" s -> d !! "email" <> Some (VStr E))
    /\ r = RegisterResponse.Build true (Store.object_id (Store.next_id s))
    /\ s1 = snd (Store.insert "user"
                   (User.model_dump (User.Build N E h None true)) s).
Proof.
  intros Hreg.
  destruct (user_lookup_cases s E) as [Hnew | (l1 & d & l2 & Hcoll & _ & Hd)].
  - destruct (hash_password P) as [h|e] eqn:Hh.
    + rewrite (register_new s N E P h Hnew Hh) in Hreg.
      exists h. split; [done|]. split; [done|]. split; congruence.
    + rewrite (register_unencodable s N E P e Hnew Hh) in Hreg. discriminate.
  - rewrite (register_taken s N E P) in Hreg; [discriminate|].
    exists d. split; [|done]. rewrite Hcoll. apply elem_of_app. right. constructor.
Qed.

(** X10. After a registration with password [P] returned, a login with the
    registered email and a password that has a hash, one that differs from
    the hash of [P], raises the 401 error and leaves the store as it is. *)
Theorem login_wrong_password_after_register (s s1 : Store.t) (N E P P' h' : string)
    (r : RegisterResponse.t) :
  register (RegisterRequest.Build N E P) s = (Return r, s1) ->
  hash_password P' = Return h' ->
  hash_password P' <> hash_password P ->
  login (LoginRequest.Build E P') s1
  = (Raise (HTTPException 401 "Invalid credentials"), s1).
Proof.
  intros Hreg Hh' Hhash. apply register_Return_inv in Hreg as (h & Hh & Hnew & _ & ->).
  rewrite (login_first_user _ E P' h' (Store.collection "user" s) []
             (<["_id" := VStr (Store.object_id (Store.next_id s))]>
                (User.model_dump (User.Build N E h None true))));
    [| apply collection_insert_eq | exact Hnew | reflexivity | exact Hh'].
  rewrite bool_decide_eq_true_2; [reflexivity|].
  change (dict_get _ "password_hash" VNone) with (VStr h).
  congruence.
Qed.

Lemma login_wrong_password_after_register_witness :
  register ada Store.empty
  = (Return (RegisterResponse.Build true "000000000000000000000000"), ada_store)
  /\ hash_password "guess" = Return (hex_sha256 "guess")
  /\ hash_password "guess" <> hash_password "secret"
  /\ login (LoginRequest.Build "ada@x.com" "guess") ada_store
     = (Raise (HTTPException 401 "Invalid credentials"), ada_store).
Proof.
  assert (H2 : hash_password "guess" <> hash_password "secret").
  { rewrite hash_guess, hash_secret. intros Heq.
    apply guess_differs. congruence. }
  split; [exact ada_registers|]. split; [exact hash_guess|]. split; [exact H2|].
  exact (login_wrong_password_after_register Store.empty ada_store
           "Ada" "ada@x.com" "secret" "guess" _ _ ada_registers hash_guess H2).
Defined.

(** ** Blog listing, further *)

Lemma seed_docs_two (now1 now2 : Z) (n : N) :
  exists d1 d2, seed_docs now1 now2 n = [d1; d2].
Proof. by eexists _, _. Qed.

(** X11. On every store the listing writes at most once: it adds no more
    than two blog documents, and a further listing on the store it leaves
    changes nothing. *)
Theorem list_blogs_writes_once {conv : Conversions}
    (s : Store.t) (now1 now2 now3 now4 : Z) :
  snd (list_blogs now3 now4 (snd (list_blogs now1 now2 s)))
  = snd (list_blogs now1 now2 s)
  /\ (length (Store.collection "blogpost" (snd (list_blogs now1 now2 s)))
      <= length (Store.collection "blogpost" s) + 2)%nat.
Proof.
  rewrite !list_blogs_state.
  destruct (published_docs s) as [|d l] eqn:Hp.
  - rewrite seeded_published, Hp, seeded_collection.
    destruct (seed_docs_two now1 now2 (Store.next_id s)) as (d1 & d2 & ->).
    split; [reflexivity|]. rewrite length_app. cbn [length]. lia.
  - rewrite Hp. split; [reflexivity | lia].
Qed.

Lemma blog_out_ValidationError {conv : Conversions} (p : document) (e : exn) :
  blog_out p = Raise e -> exists errors, e = ValidationError errors.
Proof.
  unfold blog_out, BlogOut.init.
  destruct (as_str _), (as_str _), (as_opt_str _), (as_str _), (as_str _),
    (as_str_list _), (as_bool _), (as_opt_datetime _);
    intros Hb; try discriminate Hb; injection Hb as <-; by eexists.
Qed.

Lemma blog_out_required {conv : Conversions} (p : document) :
  p !! "title" = None \/ p !! "slug" = None
  \/ p !! "content" = None \/ p !! "author" = None ->
  exists e, blog_out p = Raise e.
Proof.
  intros Hmissing. destruct (blog_out p) as [b|e] eqn:Hb; [|by exists e].
  unfold blog_out, BlogOut.init, dict_get in Hb.
  destruct Hmissing as [H | [H | [H | H]]]; rewrite H in Hb; cbn [default as_str] in Hb.
  - discriminate Hb.
  - destruct (as_str _); discriminate Hb.
  - destruct (as_str _), (as_str _), (as_opt_str _); discriminate Hb.
  - destruct (as_str _), (as_str _), (as_opt_str _), (as_str _); discriminate Hb.
Qed.

Lemma collect_pure_raises {A B} (f : A -> outcome B) (l : list A) (s : Store.t)
    (x : A) :
  x ∈ l -> (exists e, f x = Raise e) ->
  exists y e, y ∈ l /\ f y = Raise e
              /\ collect l (fun p s => (f p, s)) s = (Raise e, s).
Proof.
  intros Hx Hfx. induction l as [|a l IH]; [inversion Hx|].
  cbn [collect]. unfold bind at 1. destruct (f a) as [b|e] eqn:Ha.
  - apply elem_of_cons in Hx as [->|Hx]; [destruct Hfx; congruence|].
    destruct (IH Hx) as (y & e & Hy & Hfy & Hrun).
    exists y, e. split; [by constructor|]. split; [done|].
    unfold bind. by rewrite Hrun.
  - exists a, e. split; [constructor|]. by split.
Qed.

(** X12. One published blog document without a title, slug, content or
    author makes the whole listing raise a validation error; the store is
    left as it was. *)
Theorem list_blogs_rejects_incomplete {conv : Conversions}
    (s : Store.t) (d : document) (now1 now2 : Z) :
  d ∈ Store.collection "blogpost" s ->
  d !! "published" = Some (VBool true) ->
  d !! "title" = None \/ d !! "slug" = None
  \/ d !! "content" = None \/ d !! "author" = None ->
  exists errors, list_blogs now1 now2 s = (Raise (ValidationError errors), s).
Proof.
  intros Hd Hp Hmissing.
  assert (Hin : d ∈ published_docs s).
  { unfold published_docs. rewrite list_elem_of_In, List.filter_In, <- list_elem_of_In.
    split; [done|]. by apply bool_decide_eq_true, matches_field. }
  rewrite list_blogs_listed by (intros Hnil; rewrite Hnil in Hin; inversion Hin).
  destruct (collect_pure_raises blog_out _ s d Hin (blog_out_required d Hmissing))
    as (y & e & _ & Hy & Hrun).
  apply blog_out_ValidationError in Hy as [errors ->]. by exists errors.
Qed.

Lemma list_blogs_rejects_incomplete_witness :
  untitled_doc ∈ Store.collection "blogpost" untitled_store
  /\ untitled_doc !! "published" = Some (VBool true)
  /\ untitled_doc !! "title" = None
  /\ exists errors,
       list_blogs (conv := sample_conversions) 0 0 untitled_store
       = (Raise (ValidationError errors), untitled_store).
Proof.
  assert (H1 : untitled_doc ∈ Store.collection "blogpost" untitled_store).
  { change (Store.collection "blogpost" untitled_store) with [news_doc; untitled_doc].
    apply elem_of_cons. right. constructor. }
  split; [exact H1|]. split; [reflexivity|]. split; [reflexivity|].
  exact (list_blogs_rejects_incomplete untitled_store untitled_doc 0 0 H1 eq_refl
           (or_introl eq_refl)).
Defined.

Lemma published_docs_insert (s : Store.t) (post : BlogPost.t) :
  published_docs (snd (Store.insert "blogpost" (BlogPost.model_dump post) s))
  = (published_docs s
     ++ if BlogPost.published post
        then [<["_id" := VStr (Store.object_id (Store.next_id s))]>
                (BlogPost.model_dump post)]
        else [])%list.
Proof.
  unfold published_docs. rewrite collection_insert_eq, List.filter_app. f_equal.
  cbn [List.filter].
  assert (Hfield : (<["_id" := VStr (Store.object_id (Store.next_id s))]>
                      (BlogPost.model_dump post)) !! "published"
                   = Some (VBool (BlogPost.published post))) by reflexivity.
  destruct (BlogPost.published post).
  - rewrite bool_decide_eq_true_2; [done|]. by apply matches_field.
  - rewrite bool_decide_eq_false_2; [done|].
    rewrite matches_field, Hfield. discriminate.
Qed.

Lemma collect_pure_run {A B} (f : A -> outcome B) (l : list A) (s : Store.t)
    (outs : list B) :
  Forall2 (fun d b => f d = Return b) l outs ->
  collect l (fun p s => (f p, s)) s = (Return outs, s).
Proof.
  intros H. apply (collect_pure_return f l s) in H.
  pose proof (collect_pure_state f l s) as Hs.
  destruct (collect l _ s) as [o s']. cbn in H, Hs. by subst.
Qed.

(** X13. Creating a post and listing.  An unpublished post does not change
    what the listing returns.  A published post, when the documents listed
    so far are well formed, is returned after them with its own field
    values, and the listing leaves the store as the creation left it: no
    example is created, even when nothing was published before. *)
Theorem created_post_listing {conv : Conversions}
    (s : Store.t) (post : BlogPost.t) (now1 now2 : Z) :
  (BlogPost.published post = false ->
   fst (list_blogs now1 now2
          (snd (create_document "blogpost" (BlogPost.model_dump post) s)))
   = fst (list_blogs now1 now2 s))
  /\ (BlogPost.published post = true ->
      forall outs,
        Forall2 (fun d b => blog_out d = Return b) (published_docs s) outs ->
        list_blogs now1 now2
          (snd (create_document "blogpost" (BlogPost.model_dump post) s))
        = (Return (outs ++ [mirror post])%list,
           snd (create_document "blogpost" (BlogPost.model_dump post) s))).
Proof.
  cbn [create_document store_persistence].
  set (s1 := snd (Store.insert "blogpost" (BlogPost.model_dump post) s)).
  pose proof (published_docs_insert s post) as Hdocs. fold s1 in Hdocs.
  split; intros Hp; rewrite Hp in Hdocs.
  - rewrite app_nil_r in Hdocs.
    destruct (published_docs s) as [|d l] eqn:Hs.
    + rewrite !list_blogs_seeds, !seeded_published, Hdocs, Hs by done.
      cbn [app].
      destruct (collect_seed_docs now1 now2 (Store.next_id s1) (seeded now1 now2 s1))
        as (b1 & b2 & -> & -> & ->).
      destruct (collect_seed_docs now1 now2 (Store.next_id s) (seeded now1 now2 s))
        as (b1 & b2 & -> & -> & ->).
      reflexivity.
    + rewrite !list_blogs_listed by (by rewrite ?Hdocs, ?Hs).
      rewrite Hdocs, Hs.
      generalize (d :: l). intros docs.
      destruct (collect docs _ s1) as [o1 t1] eqn:H1.
      destruct (collect docs _ s) as [o2 t2] eqn:H2. cbn [fst].
      destruct o2 as [outs|e].
      * assert (Hf : Forall2 (fun d b => blog_out d = Return b) docs outs).
        { apply (collect_pure_return blog_out docs s). by rewrite H2. }
        rewrite (collect_pure_run blog_out docs s1 outs Hf) in H1. congruence.
      * destruct o1 as [outs|e1].
        -- assert (Hf : Forall2 (fun d b => blog_out d = Return b) docs outs).
           { apply (collect_pure_return blog_out docs s1). by rewrite H1. }
           rewrite (collect_pure_run blog_out docs s outs Hf) in H2. congruence.
        -- revert H1 H2. clear. revert e e1 t1 t2.
           induction docs as [|a docs IH]; intros e e1 t1 t2; [discriminate|].
           cbn [collect]. unfold bind at 1 3.
           destruct (blog_out a); [|congruence].
           unfold bind.
           destruct (collect docs _ s1) as [[?|?] ?] eqn:H1;
             destruct (collect docs _ s) as [[?|?] ?] eqn:H2;
             intros E1 E2; try discriminate.
           injection E1 as <- <-. injection E2 as <- <-.
           eapply IH; eauto.
  - intros outs Hf.
    rewrite list_blogs_listed by (rewrite Hdocs; by destruct (published_docs s)).
    rewrite Hdocs. apply collect_pure_run.
    apply Forall2_app; [done|]. constructor; [|constructor].
    apply blog_out_model_dump.
Qed.

Lemma created_post_listing_witness :
  fst (list_blogs (conv := sample_conversions) 0 0
         (snd (create_document "blogpost" (BlogPost.model_dump hidden_post) news_store)))
  = fst (list_blogs (conv := sample_conversions) 0 0 news_store)
  /\ list_blogs (conv := sample_conversions) 0 0
       (snd (create_document "blogpost" (BlogPost.model_dump plain_post) news_store))
     = (Return [BlogOut.Build "News" "news" None "Hello" "Team" [] true None;
                mirror plain_post],
        snd (create_document "blogpost" (BlogPost.model_dump plain_post) news_store)).
Proof.
  split.
  - exact (proj1 (created_post_listing news_store hidden_post 0 0) eq_refl).
  - apply (proj2 (created_post_listing news_store plain_post 0 0) eq_refl
             [BlogOut.Build "News" "news" None "Hello" "Team" [] true None]).
    change (published_docs news_store) with [news_doc].
    constructor; [reflexivity | constructor].
Defined.

(** ** Contact, further *)

(** X14. Contact submissions accumulate: after any sequence of requests,
    repeated ones included, the contact collection holds one more document
    per request, in the order of the requests, each with the fields of its
    request; the other collections are as they were. *)
Theorem contact_accumulates (payloads : list ContactRequest.t) (s : Store.t) :
  (exists added,
     Store.collection "contactmessage" (submit_all payloads s)
     = (Store.collection "contactmessage" s ++ added)%list
     /\ Forall2 (fun p d =>
                   d !! "name" = Some (VStr (ContactRequest.name p))
                   /\ d !! "email" = Some (VStr (ContactRequest.email p))
                   /\ d !! "subject" = Some (opt_str (ContactRequest.subject p))
                   /\ d !! "message" = Some (VStr (ContactRequest.message p)))
                payloads added)
  /\ forall c, c <> "contactmessage" ->
       Store.collection c (submit_all payloads s) = Store.collection c s.
Proof.
  revert s. induction payloads as [|p ps IH]; intros s.
  - split; [|done]. exists []. split; [by rewrite app_nil_r | constructor].
  - cbn [submit_all fold_left]. fold (submit_all ps (snd (contact p s))).
    destruct (IH (snd (contact p s))) as [(added & Hadded & Hfields) Hother].
    assert (Hstep : snd (contact p s)
                    = snd (Store.insert "contactmessage"
                             (ContactMessage.model_dump
                                (ContactMessage.Build
                                   (ContactRequest.name p) (ContactRequest.email p)
                                   (ContactRequest.subject p)
                                   (ContactRequest.message p))) s)) by reflexivity.
    split.
    + eexists (_ :: added). split.
      * rewrite Hadded, Hstep, collection_insert_eq, <- app_assoc. reflexivity.
      * constructor; [|exact Hfields]. by repeat split.
    + intros c Hc. rewrite (Hother c Hc), Hstep. by apply collection_insert_ne.
Qed.

(** ** Validation and routes, further *)

Section Validation.
Variable validate_email : string -> option string.

Lemma required_str_inr (body : document) (k v : string) :
  required_str body k = inr v <-> body !! k = Some (VStr v).
Proof.
  unfold required_str. destruct (body !! k) as [[]|]; split; congruence.
Qed.

Lemma required_email_inr (body : document) (k v : string) :
  required_email validate_email body k = inr v
  <-> exists e, body !! k = Some (VStr e) /\ validate_email e = Some v.
Proof.
  unfold required_email. destruct (required_str body k) as [err|e] eqn:Hr.
  - split; [discriminate|]. intros (e & He & _).
    apply required_str_inr in He. congruence.
  - apply required_str_inr in Hr. destruct (validate_email e) as [v'|] eqn:Hv.
    + split.
      * intros [= <-]. by exists e.
      * intros (e' & He' & Hv'). congruence.
    + split; [discriminate|]. intros (e' & He' & Hv'). congruence.
Qed.

(** X16. Through the routes: when a register body validates with email
    check result [E] and the registration returns, a login body whose
    email the check also turns into [E], with the same password, logs in
    and gets the registered name and [E] back. *)
Theorem routes_register_then_login (s s1 : Store.t) (body1 body2 : document)
    (N e1 e2 E P : string) (r : RegisterResponse.t) :
  body1 !! "name" = Some (VStr N) ->
  body1 !! "email" = Some (VStr e1) ->
  body1 !! "password" = Some (VStr P) ->
  body2 !! "email" = Some (VStr e2) ->
  body2 !! "password" = Some (VStr P) ->
  validate_email e1 = Some E ->
  validate_email e2 = Some E ->
  post_api_auth_register validate_email body1 s = (Return r, s1) ->
  post_api_auth_login validate_email body2 s1
  = (Return (LoginResponse.Build true (VStr N) (VStr E)), s1).
Proof.
  intros Hn He1 Hp He2 Hp2 Hv1 Hv2.
  unfold post_api_auth_register, post_api_auth_login, post,
    RegisterRequest_validate, LoginRequest_validate.
  rewrite (proj2 (required_str_inr body1 "name" N) Hn).
  rewrite (proj2 (required_email_inr body1 "email" E)) by eauto.
  rewrite (proj2 (required_str_inr body1 "password" P) Hp).
  rewrite (proj2 (required_email_inr body2 "email" E)) by eauto.
  rewrite (proj2 (required_str_inr body2 "password" P) Hp2).
  intros Hreg. apply register_Return_inv in Hreg as (h & Hh & Hnew & _ & ->).
  rewrite (login_first_user _ E P h (Store.collection "user" s) []
             (<["_id" := VStr (Store.object_id (Store.next_id s))]>
                (User.model_dump (User.Build N E h None true))));
    [| apply collection_insert_eq | exact Hnew | reflexivity | exact Hh].
  change (dict_get _ "password_hash" VNone) with (VStr h).
  rewrite bool_decide_eq_false_2; [reflexivity|]. intros Hne. by apply Hne.
Qed.

End Validation.

Lemma routes_register_then_login_witness :
  sample_fold_email "Ada@X.COM" = Some "ada@x.com"
  /\ sample_fold_email "ada@x.com" = Some "ada@x.com"
  /\ post_api_auth_register sample_fold_email ada_register_body Store.empty
     = (Return (RegisterResponse.Build true "000000000000000000000000"), ada_store)
  /\ post_api_auth_login sample_fold_email ada_login_body ada_store
     = (Return (LoginResponse.Build true (VStr "Ada") (VStr "ada@x.com")), ada_store).
Proof.
  assert (H1 : sample_fold_email "Ada@X.COM" = Some "ada@x.com") by reflexivity.
  assert (H2 : sample_fold_email "ada@x.com" = Some "ada@x.com") by reflexivity.
  assert (H3 : post_api_auth_register sample_fold_email ada_register_body Store.empty
               = (Return (RegisterResponse.Build true "000000000000000000000000"),
                  ada_store)) by exact ada_registers.
  split; [exact H1|]. split; [exact H2|]. split; [exact H3|].
  exact (routes_register_then_login sample_fold_email Store.empty ada_store
           ada_register_body ada_login_body "Ada" "Ada@X.COM" "ada@x.com"
           "ada@x.com" "secret" _ eq_refl eq_refl eq_refl eq_refl eq_refl H1 H2 H3).
Defined.

(** ** Adapter failures *)

Section Propagation.
Context {S : Type} `{!Persistence S}.

(** X17. Whatever the adapter, the handlers catch nothing: an exception
    raised by any call of the adapter (the lookup and the creation of
    [register], the lookup of [login], the first query, either creation and
    the second query of [list_blogs], the creation of [contact]) is raised
    by the handler unchanged, with the store as the failing call left it. *)
Theorem adapter_errors_propagate {conv : Conversions} (s s1 : S) (e : exn) :
  (forall p,
     get_documents "user" {["email" := VStr (RegisterRequest.email p)]}
                   (Some 1%nat) s = (Raise e, s1) ->
     register p s = (Raise e, s1))
  /\ (forall p s0 h,
        get_documents "user" {["email" := VStr (RegisterRequest.email p)]}
                      (Some 1%nat) s0 = (Return [], s) ->
        hash_password (RegisterRequest.password p) = Return h ->
        create_document "user"
          (User.model_dump
             (User.Build (RegisterRequest.name p) (RegisterRequest.email p)
                         h None true)) s
        = (Raise e, s1) ->
        register p s0 = (Raise e, s1))
  /\ (forall p,
        get_documents "user" {["email" := VStr (LoginRequest.email p)]}
                      (Some 1%nat) s = (Raise e, s1) ->
        login p s = (Raise e, s1))
  /\ (forall now1 now2,
        get_documents "blogpost" {["published" := VBool true]} None s = (Raise e, s1) ->
        list_blogs now1 now2 s = (Raise e, s1))
  /\ (forall now1 now2 s0 ex1 ex2,
        examples now1 now2 = [ex1; ex2] ->
        get_documents "blogpost" {["published" := VBool true]} None s0
        = (Return [], s) ->
        create_document "blogpost" (BlogPost.model_dump ex1) s = (Raise e, s1) ->
        list_blogs now1 now2 s0 = (Raise e, s1))
  /\ (forall now1 now2 s0 sa ex1 ex2 id1,
        examples now1 now2 = [ex1; ex2] ->
        get_documents "blogpost" {["published" := VBool true]} None s0
        = (Return [], sa) ->
        create_document "blogpost" (BlogPost.model_dump ex1) sa = (Return id1, s) ->
        create_document "blogpost" (BlogPost.model_dump ex2) s = (Raise e, s1) ->
        list_blogs now1 now2 s0 = (Raise e, s1))
  /\ (forall now1 now2 s0 sa sb ex1 ex2 id1 id2,
        examples now1 now2 = [ex1; ex2] ->
        get_documents "blogpost" {["published" := VBool true]} None s0
        = (Return [], sa) ->
        create_document "blogpost" (BlogPost.model_dump ex1) sa = (Return id1, sb) ->
        create_document "blogpost" (BlogPost.model_dump ex2) sb = (Return id2, s) ->
        get_documents "blogpost" {["published" := VBool true]} None s = (Raise e, s1) ->
        list_blogs now1 now2 s0 = (Raise e, s1))
  /\ (forall p,
        create_document "contactmessage"
          (ContactMessage.model_dump
             (ContactMessage.Build (ContactRequest.name p) (ContactRequest.email p)
                                   (ContactRequest.subject p) (ContactRequest.message p)))
          s = (Raise e, s1) ->
        contact p s = (Raise e, s1)).
Proof.
  split; [|split; [|split; [|split; [|split; [|split; [|split]]]]]].
  - intros p H. unfold register, bind. by rewrite H.
  - intros p s0 h H1 Hh H2. unfold register, bind, lift. rewrite H1.
    cbn [list_truthy]. by rewrite Hh, H2.
  - intros p H. unfold login, bind. by rewrite H.
  - intros now1 now2 H. unfold list_blogs, bind. by rewrite H.
  - intros now1 now2 s0 ex1 ex2 Hex Hfind Hc1. unfold list_blogs. rewrite Hex.
    unfold bind at 1. rewrite Hfind. cbn [list_truthy].
    unfold bind at 1. unfold bind at 1. cbn [for_each].
    unfold bind at 1. unfold bind at 1. by rewrite Hc1.
  - intros now1 now2 s0 sa ex1 ex2 id1 Hex Hfind Hc1 Hc2.
    unfold list_blogs. rewrite Hex.
    unfold bind at 1. rewrite Hfind. cbn [list_truthy].
    unfold bind at 1. unfold bind at 1. cbn [for_each].
    unfold bind at 1. unfold bind at 1. rewrite Hc1.
    unfold ret at 1. unfold bind at 1. unfold bind at 1. by rewrite Hc2.
  - intros now1 now2 s0 sa sb ex1 ex2 id1 id2 Hex Hfind Hc1 Hc2 Hfind2.
    unfold list_blogs. rewrite Hex.
    unfold bind at 1. rewrite Hfind. cbn [list_truthy].
    unfold bind at 1. unfold bind at 1. cbn [for_each].
    unfold bind at 1. unfold bind at 1. rewrite Hc1.
    unfold ret at 1. unfold bind at 1. unfold bind at 1. rewrite Hc2.
    unfold ret at 1. unfold ret at 1. by rewrite Hfind2.
  - intros p H. unfold contact, bind. by rewrite H.
Qed.

(** X18. Whatever the adapter, seeding is not undone: when the listing
    finds nothing published, creates the first example and the creation of
    the second raises, the listing raises that exception and the store is
    the one the failing call left, first example included. *)
Theorem list_blogs_seeding_not_atomic {conv : Conversions}
    (s s1 s2 s3 : S) (now1 now2 : Z)
    (id1 : string) (e : exn) (ex1 ex2 : BlogPost.t) :
  examples now1 now2 = [ex1; ex2] ->
  get_documents "blogpost" {["published" := VBool true]} None s = (Return [], s1) ->
  create_document "blogpost" (BlogPost.model_dump ex1) s1 = (Return id1, s2) ->
  create_document "blogpost" (BlogPost.model_dump ex2) s2 = (Raise e, s3) ->
  list_blogs now1 now2 s = (Raise e, s3).
Proof.
  intros Hex Hfind Hc1 Hc2. unfold list_blogs. rewrite Hex.
  unfold bind at 1. rewrite Hfind. cbn [list_truthy].
  unfold bind at 1. unfold bind at 1. cbn [for_each].
  unfold bind at 1. unfold bind at 1. rewrite Hc1.
  unfold ret at 1. unfold bind at 1. unfold bind at 1. by rewrite Hc2.
Qed.

End Propagation.

Lemma adapter_errors_propagate_witness :
  @register unit unavailable ada tt
  = (Raise (Exception "Database not available"), tt)
  /\ @login unit unavailable ada_login tt
     = (Raise (Exception "Database not available"), tt)
  /\ @list_blogs unit unavailable sample_conversions 0 0 tt
     = (Raise (Exception "Database not available"), tt)
  /\ @contact unit unavailable hello tt
     = (Raise (Exception "Database not available"), tt)
  /\ @register Store.t (capped 0) ada Store.empty
     = (Raise (Exception "quota exceeded"), Store.empty)
  /\ @list_blogs Store.t (capped 0) sample_conversions 0 0 Store.empty
     = (Raise (Exception "quota exceeded"), Store.empty)
  /\ (exists s2,
        @list_blogs Store.t (capped 1) sample_conversions 0 0 Store.empty
        = (Raise (Exception "quota exceeded"), s2))
  /\ (exists s3,
        @list_blogs Store.t (read_capped 2) sample_conversions 0 0 Store.empty
        = (Raise (Exception "read refused"), s3)).
Proof.
  pose proof (@adapter_errors_propagate unit unavailable sample_conversions tt tt
                (Exception "Database not available"))
    as (H1 & _ & H3 & H4 & _ & _ & _ & H8).
  pose proof (@adapter_errors_propagate Store.t (capped 0) sample_conversions
                Store.empty Store.empty (Exception "quota exceeded"))
    as (_ & H2 & _ & _ & H5 & _).
  split; [exact (H1 ada eq_refl)|]. split; [exact (H3 ada_login eq_refl)|].
  split; [exact (H4 0 0 eq_refl)|]. split; [exact (H8 hello eq_refl)|].
  split; [exact (H2 ada Store.empty _ eq_refl hash_secret eq_refl)|].
  split; [exact (H5 0 0 Store.empty _ _ eq_refl eq_refl eq_refl)|].
  split.
  - eexists.
    eapply (proj1 (proj2 (proj2 (proj2 (proj2 (proj2
              (@adapter_errors_propagate Store.t (capped 1) sample_conversions
                 _ _ _)))))));
      reflexivity.
  - eexists.
    eapply (proj1 (proj2 (proj2 (proj2 (proj2 (proj2 (proj2
              (@adapter_errors_propagate Store.t (read_capped 2) sample_conversions
                 _ _ _))))))));
      reflexivity.
Defined.

Lemma list_blogs_seeding_not_atomic_witness :
  exists s3,
    @list_blogs Store.t (capped 1) sample_conversions 0 0 Store.empty
    = (Raise (Exception "quota exceeded"), s3)
    /\ length (Store.collection "blogpost" s3) = 1%nat.
Proof.
  eexists. split.
  - eapply (@list_blogs_seeding_not_atomic Store.t (capped 1) sample_conversions
              Store.empty _ _ _ 0 0);
      reflexivity.
  - reflexivity.
Defined.
